(** * L2L Dispatch API example client ([api/main.py]): model and properties

    The script is a linear sequence of HTTP calls, each one checked by
    [respcheck] and logged, over a per-run parameter dictionary [args]
    that is merged with per-call parameters by [dcu].  The development
    embeds the Python values the script manipulates, the response checker,
    the dictionary objects of the parameter mappings (as a store, so that
    aliasing and mutation can be stated), the [datetime] formatting that
    the script uses, and [main] itself in a small state-and-exception
    monad. *)

From Stdlib Require Import ZArith String Ascii List Floats.
From stdpp Require Import base option list gmap strings pretty fin_maps.

Local Open Scope string_scope.
Local Open Scope list_scope.
Local Open Scope Z_scope.
Set Warnings "-register-all".

(** ** Python values *)

Module Py.

(** The values that [json.loads] produces, plus [bytes] (the type of
    [resp.content]).  A [dict] decoded from JSON has string keys; Python
    compares dictionaries without regard to insertion order, which is the
    extensional equality of [gmap].  A character of a [str] is a byte
    here. *)
Inductive value : Type :=
| PyNone
| PyBool (b : bool)
| PyInt (z : Z)
| PyFloat (f : float)
| PyStr (s : string)
| PyBytes (b : string)
| PyList (l : list value)
| PyDict (d : gmap string value).

(** Subscript keys that occur in the script: string literals
    (['success'], ['data'], ['code'], ...) and integer literals
    ([0], [-1]). *)
Inductive key : Type :=
| KStr (s : string)
| KInt (i : Z).

(** An f-string, kept as its pieces: literal text and [str(v)] of an
    interpolated value. *)
Inductive piece : Type :=
| Lit (s : string)
| Str (v : value).

Definition text : Type := list piece.

(** The exception classes that the script raises or lets through. *)
Inductive exn : Type :=
| Exception (msg : text)       (* raise Exception(...) in the script *)
| KeyError (k : key)           (* d[k] on a dict without k *)
| IndexError                   (* l[i] out of range *)
| TypeError                    (* subscript or len() of the wrong type *)
| OverflowError                (* datetime arithmetic out of range *)
| JSONDecodeError              (* resp.json() on a body that is not JSON *)
| RequestException.            (* the transport failed before a response *)

Inductive result (A : Type) : Type :=
| Return (a : A)
| Raise (e : exn).
Arguments Return {A} a.
Arguments Raise {A} e.

Definition rbind {A B} (r : result A) (k : A -> result B) : result B :=
  match r with
  | Return a => k a
  | Raise e => Raise e
  end.

(** [bool(v)]: what [if v:] and [not v] test. *)
Definition truthy (v : value) : bool :=
  match v with
  | PyNone => false
  | PyBool b => b
  | PyInt z => negb (z =? 0)
  | PyFloat f => negb (PrimFloat.eqb f PrimFloat.zero)
  | PyStr s => negb (String.eqb s "")
  | PyBytes b => negb (String.eqb b "")
  | PyList l => match l with [] => false | _ => true end
  | PyDict d => negb (Nat.eqb (size d) 0)
  end.

(** [len(v)] *)
Definition len (v : value) : result Z :=
  match v with
  | PyStr s => Return (Z.of_nat (String.length s))
  | PyBytes b => Return (Z.of_nat (String.length b))
  | PyList l => Return (Z.of_nat (List.length l))
  | PyDict d => Return (Z.of_nat (size d))
  | _ => Raise TypeError
  end.

(** Sequence indexing with Python's negative indices. *)
Definition seq_index {A} (get : nat -> option A) (n : nat) (i : Z) : result A :=
  let j := if i <? 0 then i + Z.of_nat n else i in
  if (j <? 0) || (Z.of_nat n <=? j) then Raise IndexError
  else match get (Z.to_nat j) with
       | Some a => Return a
       | None => Raise IndexError
       end.

(** [v[k]] *)
Definition getitem (v : value) (k : key) : result value :=
  match v, k with
  | PyDict d, KStr s =>
      match d !! s with
      | Some x => Return x
      | None => Raise (KeyError k)
      end
  | PyDict _, KInt _ => Raise (KeyError k)
  | PyList l, KInt i => seq_index (fun n => l !! n) (List.length l) i
  | PyStr s, KInt i =>
      seq_index (fun n => option_map (fun c => PyStr (String c EmptyString)) (String.get n s))
                (String.length s) i
  | PyBytes b, KInt i =>
      seq_index (fun n => option_map (fun c => PyInt (Z.of_nat (nat_of_ascii c))) (String.get n b))
                (String.length b) i
  | _, _ => Raise TypeError
  end.

End Py.
Import Py.

Notation "'let!' x ':=' r 'in' k" := (rbind r (fun x => k))
  (at level 10, x name, r at level 200, k at level 200, only parsing).

(** ** The transport response *)

(** A [requests.Response], reduced to what the script reads: the status
    code, the raw body, and the outcome of [resp.json()].  The JSON decoder
    belongs to the HTTP client library; [json] holds what it returns for
    this body, [None] standing for a body that it rejects. *)
Record Response : Type := mkResponse {
  status_code : Z;
  content : string;
  json : option value
}.

(** [resp.ok] of the [requests] library: [raise_for_status()] raises for
    client errors (400 to 499) and server errors (500 to 599), and [ok] is
    true when it does not raise. *)
Definition ok (resp : Response) : bool :=
  negb ((400 <=? status_code resp) && (status_code resp <? 600)).

(** The status is in the 2xx range. *)
Definition is_2xx (resp : Response) : Prop :=
  200 <= status_code resp < 300.

(** ** Utility functions of the script *)

(** The two messages that [respcheck] raises with. *)
Definition system_failure (status : Z) (body : string) : exn :=
  Exception [Lit "API call system failure, status: "; Str (PyInt status);
             Lit ", error: "; Str (PyBytes body)].

Definition application_failure (err : value) : exn :=
  Exception [Lit "API call failed, error: "; Str err].

Definition respcheck (resp : Response) (getdata : bool) : result value :=
  if negb (ok resp) then
    Raise (system_failure (status_code resp) (content resp))
  else
    let! respjson := match json resp with
                     | Some v => Return v
                     | None => Raise JSONDecodeError
                     end in
    let! success := getitem respjson (KStr "success") in
    if negb (truthy success) then
      let! err := getitem respjson (KStr "error") in
      Raise (application_failure err)
    else if getdata then getitem respjson (KStr "data")
    else Return respjson.

(** The Python class of a raised exception. *)
Inductive exn_class : Type :=
  CException | CKeyError | CIndexError | CTypeError | COverflowError
| CJSONDecodeError | CRequestException.

Definition class_of (e : exn) : exn_class :=
  match e with
  | Exception _ => CException
  | KeyError _ => CKeyError
  | IndexError => CIndexError
  | TypeError => CTypeError
  | OverflowError => COverflowError
  | JSONDecodeError => CJSONDecodeError
  | RequestException => CRequestException
  end.

(** The response envelopes of the service. *)
Definition envelope_success (D : value) : gmap string value :=
  <["success" := PyBool true]> (<["data" := D]> ∅).

Definition envelope_failure (E : value) : gmap string value :=
  <["success" := PyBool false]> (<["error" := E]> ∅).

(** ** Dates and their formatting *)

Module Datetime.

(** A naive [datetime.datetime]. *)
Record datetime : Type := mkDatetime {
  year : Z; month : Z; day : Z;
  hour : Z; minute : Z; second : Z; microsecond : Z
}.

(** A [timedelta], as its total number of microseconds. *)
Definition timedelta (days hours minutes : Z) : Z :=
  ((days * 24 + hours) * 60 + minutes) * 60 * 1000000.

Definition us_per_day : Z := 86400 * 1000000.
Definition MAXORDINAL : Z := 3652059.   (* date(9999, 12, 31).toordinal() *)

Definition is_leap (y : Z) : bool :=
  (y mod 4 =? 0) && (negb (y mod 100 =? 0) || (y mod 400 =? 0)).

Definition days_before_year (y : Z) : Z :=
  let p := y - 1 in p * 365 + p / 4 - p / 100 + p / 400.

Definition days_in_month (y m : Z) : Z :=
  if (m =? 2) && is_leap y then 29
  else nth (Z.to_nat m) [0; 31; 28; 31; 30; 31; 30; 31; 31; 30; 31; 30; 31] 0.

Definition days_before_month (y m : Z) : Z :=
  nth (Z.to_nat m) [0; 0; 31; 59; 90; 120; 151; 181; 212; 243; 273; 304; 334] 0
  + (if (2 <? m) && is_leap y then 1 else 0).

(** Proleptic Gregorian ordinal, day 1 being 0001-01-01. *)
Definition ymd2ord (y m d : Z) : Z :=
  days_before_year y + days_before_month y m + d.

Definition ord2ymd (n0 : Z) : Z * Z * Z :=
  let n := n0 - 1 in
  let n400 := n / 146097 in let n := n mod 146097 in
  let n100 := n / 36524 in let n := n mod 36524 in
  let n4 := n / 1461 in let n := n mod 1461 in
  let n1 := n / 365 in let n := n mod 365 in
  let y := n400 * 400 + 1 + n100 * 100 + n4 * 4 + n1 in
  if (n1 =? 4) || (n100 =? 4) then (y - 1, 12, 31)
  else
    let m := Z.shiftr (n + 50) 5 in
    let preceding := days_before_month y m in
    if n <? preceding then
      (y, m - 1, n - (preceding - days_in_month y (m - 1)) + 1)
    else (y, m, n - preceding + 1).

(** [dt + delta]; [dt - delta] is [add dt (- delta)]. *)
Definition add (dt : datetime) (delta : Z) : result datetime :=
  let total :=
    ymd2ord (year dt) (month dt) (day dt) * us_per_day
    + ((hour dt * 60 + minute dt) * 60 + second dt) * 1000000
    + microsecond dt + delta in
  let days := total / us_per_day in
  let rem := total mod us_per_day in
  let secs := rem / 1000000 in
  if (0 <? days) && (days <=? MAXORDINAL) then
    let '(y, m, d) := ord2ymd days in
    Return (mkDatetime y m d (secs / 3600) (secs mod 3600 / 60) (secs mod 60)
                       (rem mod 1000000))
  else Raise OverflowError.

(** [dt.replace(hour=0, minute=0, second=0, microsecond=0)] *)
Definition midnight (dt : datetime) : datetime :=
  mkDatetime (year dt) (month dt) (day dt) 0 0 0 0.

Definition digit (z : Z) : ascii := ascii_of_nat (48 + Z.to_nat (z mod 10)).

(** A decimal field zero-padded to [w] digits. *)
Fixpoint padded (w : nat) (z : Z) : string :=
  match w with
  | O => EmptyString
  | S w' => padded w' (z / 10) ++ String (digit z) EmptyString
  end.

(** [dt.strftime(fmt)] for the directives of the two API formats; any
    other character, and a percent sign before any other character, is
    copied. *)
Fixpoint strftime (dt : datetime) (fmt : string) : string :=
  match fmt with
  | EmptyString => EmptyString
  | String "%" (String c rest) =>
      (if Ascii.eqb c "Y" then padded 4 (year dt)
       else if Ascii.eqb c "m" then padded 2 (month dt)
       else if Ascii.eqb c "d" then padded 2 (day dt)
       else if Ascii.eqb c "H" then padded 2 (hour dt)
       else if Ascii.eqb c "M" then padded 2 (minute dt)
       else if Ascii.eqb c "S" then padded 2 (second dt)
       else if Ascii.eqb c "%" then "%"
       else String "%" (String c EmptyString))
      ++ strftime dt rest
  | String c rest => String c (strftime dt rest)
  end.

End Datetime.
Import Datetime.

(** These are the standard datetime string formats that the Dispatch API
    supports. *)
Definition API_MINUTE_FORMAT : string := "%Y-%m-%d %H:%M".
Definition API_SECONDS_FORMAT : string := "%Y-%m-%d %H:%M:%S".

(** ** Dictionary objects, the transport and the run *)

(** The parameter mappings ([args], the dictionary displays of the calls,
    the copies made by [dcu]) are mutable objects.  They live in a store
    indexed by reference, so that two names for one object, and a write
    through either, are visible. *)
Definition loc : Type := nat.

Inductive method : Type := GET | POST.

(** What [requests.get(url, params)] and [requests.post(url, data)] send:
    the URL and the items of the mapping at the time of the call. *)
Record request : Type := mkRequest {
  req_method : method;
  req_url : text;
  req_params : gmap string value
}.

(** What a run does, in order. *)
Inductive event : Type :=
| EAlloc (l : loc) (d : gmap string value)        (* a new dict object *)
| ESetItem (l : loc) (k : string) (v : value)     (* l[k] = v *)
| EUpdate (l : loc) (d : gmap string value)       (* l.update(d) *)
| ERequest (req : request) (resp : result Response)
| EPrint (msg : text)                             (* print(msg) *)
| EPrintJson (v : value).                         (* print(json.dumps(v, indent=2)) *)

Record state : Type := mkState {
  heap : gmap loc (gmap string value);
  trace : list event
}.

(** How a computation stops: with a value, with a Python exception, or
    outside Python's behaviours (the loop bound of the model is used up, or
    a reference names no object). *)
Inductive outcome (A : Type) : Type :=
| Ret (a : A)
| Exn (e : exn)
| OutOfFuel
| Dangling.
Arguments Ret {A} a.
Arguments Exn {A} e.
Arguments OutOfFuel {A}.
Arguments Dangling {A}.

Definition M (A : Type) : Type := state -> outcome A * state.

Definition ret {A} (a : A) : M A := fun s => (Ret a, s).

Definition bind {A B} (c : M A) (k : A -> M B) : M B :=
  fun s =>
    match c s with
    | (Ret a, s') => k a s'
    | (Exn e, s') => (Exn e, s')
    | (OutOfFuel, s') => (OutOfFuel, s')
    | (Dangling, s') => (Dangling, s')
    end.

Notation "'let*' x ':=' c 'in' k" := (bind c (fun x => k))
  (at level 10, x name, c at level 200, k at level 200, only parsing).
Notation "c ;; k" := (bind c (fun _ => k))
  (at level 100, k at level 200, right associativity, only parsing).

Definition raise {A} (e : exn) : M A := fun s => (Exn e, s).

Definition lift {A} (r : result A) : M A :=
  match r with
  | Return a => ret a
  | Raise e => raise e
  end.

Definition emit (e : event) : M unit :=
  fun s => (Ret tt, mkState (heap s) (trace s ++ [e])).

(** A new dict object with the items [d]. *)
Definition dict_new (d : gmap string value) : M loc :=
  fun s =>
    let l := fresh (dom (heap s)) in
    (Ret l, mkState (<[l := d]> (heap s)) (trace s ++ [EAlloc l d])).

Definition dict_items (l : loc) : M (gmap string value) :=
  fun s =>
    match heap s !! l with
    | Some d => (Ret d, s)
    | None => (Dangling, s)
    end.

(** [l.copy()]: a new object with the same items (a shallow copy). *)
Definition dict_copy (l : loc) : M loc :=
  let* d := dict_items l in dict_new d.

(** [l.update(l2)]: the items of [l2] are stored into [l], replacing the
    values of the keys that [l] already has. *)
Definition dict_update (l l2 : loc) : M unit :=
  let* d2 := dict_items l2 in
  let* d := dict_items l in
  fun s => (Ret tt, mkState (<[l := d2 ∪ d]> (heap s)) (trace s ++ [EUpdate l d2])).

(** [l[k] = v] *)
Definition dict_setitem (l : loc) (k : string) (v : value) : M unit :=
  let* d := dict_items l in
  fun s => (Ret tt, mkState (<[l := <[k := v]> d]> (heap s)) (trace s ++ [ESetItem l k v])).

(** Dict copy & update, returning the new dictionary *)
Definition dcu (d1 d2 : loc) : M loc :=
  let* rval := dict_copy d1 in
  dict_update rval d2 ;;
  ret rval.

Definition log (debug : bool) (msg : text) (data : value) : M unit :=
  emit (EPrint msg) ;;
  if debug then emit (EPrintJson data) else ret tt.

(** What is outside the script: the remote service behind the HTTP client
    (it answers a request knowing what happened before), the clock and the
    random number generator, each read at the line its field names. *)
Record world : Type := mkWorld {
  transport : list event -> request -> result Response;
  now_146 : datetime;
  now_189 : datetime;
  time_206 : Z;               (* int(time.time()) *)
  randint_207 : Z;            (* random.randint(10, 100) *)
  randint_208 : Z;            (* random.randint(5, 20) *)
  randint_209 : Z;            (* random.randint(0, 10) *)
  now_217 : datetime;
  now_218 : datetime
}.

(** The parsed command line. *)
Record cmdline : Type := mkCmdline {
  dbg : bool;
  server : string;
  site : Z;
  user : string;
  apikey : string
}.

Section Run.

Variable w : world.

Definition send (m : method) (url : text) (params : loc) : M Response :=
  let* d := dict_items params in
  fun s =>
    let req := mkRequest m url d in
    let r := transport w (trace s) req in
    let s' := mkState (heap s) (trace s ++ [ERequest req r]) in
    match r with
    | Return resp => (Ret resp, s')
    | Raise e => (Exn e, s')
    end.

Definition requests_get : text -> loc -> M Response := send GET.
Definition requests_post : text -> loc -> M Response := send POST.

End Run.

(** ** The script *)

Section Main.

Variable w : world.
Variable cmd : cmdline.

Definition baseurl : string := "https://" ++ server cmd ++ "/api/1.0/".

(** A dictionary display [{k1: v1, ...}]. *)
Definition display (items : list (string * value)) : M loc :=
  dict_new (list_to_map items).

(** The paging loop of lines 83 to 94; [fuel] bounds the number of
    iterations, and the result is [area_data] when the loop ends. *)
Fixpoint area_loop (fuel : nat) (args : loc) (limit offset : Z) (area_data : value)
  : M value :=
  match fuel with
  | O => fun s => (OutOfFuel, s)
  | S fuel' =>
      let* d2 := display [("active", PyBool true); ("limit", PyInt limit);
                          ("offset", PyInt offset)] in
      let* params := dcu args d2 in
      let* resp := requests_get w [Lit (baseurl ++ "areas/")] params in
      let* data := lift (respcheck resp true) in
      let* n := lift (len data) in
      if n <? limit then
        if truthy data then lift (getitem data (KInt (-1)))
        else ret area_data
      else
        let* last := lift (getitem data (KInt (-1))) in
        area_loop fuel' args limit (offset + n) last
  end.

(** [x = None; if data: x = data[0]; if not x: raise Exception(msg)] *)
Definition first_or_raise (data : value) (msg : string) : M value :=
  let* x := if truthy data then lift (getitem data (KInt 0)) else ret PyNone in
  if negb (truthy x) then raise (Exception [Lit msg]) else ret x.

(** Lines 65 to 68: the site must be an active test site. *)
Definition check_site (args : loc) : M value :=
  let* d2 := display [("test_site", PyBool true); ("site", PyInt (site cmd));
                      ("active", PyBool true)] in
  let* params := dcu args d2 in
  let* resp := requests_get w [Lit (baseurl ++ "sites/")] params in
  let* data := lift (respcheck resp true) in
  let* n := lift (len data) in
  if negb (n =? 1) then raise (Exception [Lit "Invalid test site specified"])
  else ret data.

(** Lines 70 to 226: everything after the site was added to [args]. *)
Definition examples (fuel : nat) (args : loc) (data : value) : M unit :=
  let* site0 := lift (getitem data (KInt 0)) in
  let* descr := lift (getitem site0 (KStr "description")) in
  log (dbg cmd) [Lit "Using site: "; Str descr] data ;;
  (* an area, by paging *)
  let* area_data := area_loop fuel args 2 0 PyNone in
  (if negb (truthy area_data)
   then raise (Exception [Lit "Couldn't find an active area to use"]) else ret tt) ;;
  let* code := lift (getitem area_data (KStr "code")) in
  log (dbg cmd) [Lit "Using area: "; Str code] area_data ;;
  (* a line of the area *)
  let* area_id := lift (getitem area_data (KStr "id")) in
  let* d2 := display [("area_id", area_id); ("active", PyBool true);
                      ("enable_production", PyBool true)] in
  let* params := dcu args d2 in
  let* resp := requests_get w [Lit (baseurl ++ "lines/")] params in
  let* data := lift (respcheck resp true) in
  let* line_data := first_or_raise data "Couldn't find an active line to use" in
  let* code := lift (getitem line_data (KStr "code")) in
  log (dbg cmd) [Lit "Using line: "; Str code] line_data ;;
  (* a machine on the line *)
  let* line_id := lift (getitem line_data (KStr "id")) in
  let* d2 := display [("line_id", line_id); ("active", PyBool true)] in
  let* params := dcu args d2 in
  let* resp := requests_get w [Lit (baseurl ++ "machines/")] params in
  let* data := lift (respcheck resp true) in
  let* machine_data := first_or_raise data "Couldn't find an active machine to use" in
  let* code := lift (getitem machine_data (KStr "code")) in
  log (dbg cmd) [Lit "Using machine: "; Str code] machine_data ;;
  (* a dispatch type *)
  let* d2 := display [("active", PyBool true)] in
  let* params := dcu args d2 in
  let* resp := requests_get w [Lit (baseurl ++ "dispatchtypes/")] params in
  let* data := lift (respcheck resp true) in
  let* dispatchtype_data :=
    first_or_raise data "Couldn't find an active dispatch type to use" in
  let* code := lift (getitem dispatchtype_data (KStr "code")) in
  log (dbg cmd) [Lit "Using Dispatch Type: "; Str code] dispatchtype_data ;;
  (* clock the user in, and out *)
  let* linecode := lift (getitem line_data (KStr "code")) in
  let* d2 := display [("linecode", linecode)] in
  let* params := dcu args d2 in
  let* resp := requests_post w [Lit (baseurl ++ "users/clock_in/" ++ user cmd ++ "/")]
                             params in
  let* respjson := lift (respcheck resp false) in
  log (dbg cmd) [Lit "User clocked in"] respjson ;;
  let* linecode := lift (getitem line_data (KStr "code")) in
  let* d2 := display [("linecode", linecode)] in
  let* params := dcu args d2 in
  let* resp := requests_post w [Lit (baseurl ++ "users/clock_out/" ++ user cmd ++ "/")]
                             params in
  let* respjson := lift (respcheck resp false) in
  log (dbg cmd) [Lit "User clocked out"] respjson ;;
  (* a clock-in session in the past *)
  let* start := lift (add (now_146 w) (- timedelta 7 0 0)) in
  let* end_ := lift (add start (timedelta 0 8 0)) in
  let* linecode := lift (getitem line_data (KStr "code")) in
  let* d2 := display [("linecode", linecode);
                      ("start", PyStr (strftime start API_MINUTE_FORMAT));
                      ("end", PyStr (strftime end_ API_MINUTE_FORMAT))] in
  let* params := dcu args d2 in
  let* resp := requests_post w [Lit (baseurl ++ "users/clock_in/" ++ user cmd ++ "/")]
                             params in
  let* respjson := lift (respcheck resp false) in
  log (dbg cmd) [Lit "Created backdated clock in"] respjson ;;
  (* the cycle count of the machine *)
  let* code := lift (getitem machine_data (KStr "code")) in
  let* d2 := display [("code", code); ("cyclecount", PyInt 832)] in
  let* params := dcu args d2 in
  let* resp := requests_post w [Lit (baseurl ++ "machines/set_cycle_count/")] params in
  let* respjson := lift (respcheck resp false) in
  log (dbg cmd) [Lit "Set machine cycle count"] respjson ;;
  let* code := lift (getitem machine_data (KStr "code")) in
  let* d2 := display [("code", code); ("skip_lastupdated", PyInt 1);
                      ("cyclecount", PyInt 5)] in
  let* params := dcu args d2 in
  let* resp := requests_post w [Lit (baseurl ++ "machines/increment_cycle_count/")]
                             params in
  let* respjson := lift (respcheck resp false) in
  log (dbg cmd) [Lit "Incremented machine cycle count"] respjson ;;
  (* open a dispatch, and close it *)
  let* dt_id := lift (getitem dispatchtype_data (KStr "id")) in
  let* m_id := lift (getitem machine_data (KStr "id")) in
  let* d2 := display [("dispatchtype", dt_id);
                      ("description", PyStr "l2lsdk test dispatch");
                      ("machine", m_id)] in
  let* params := dcu args d2 in
  let* resp := requests_post w [Lit (baseurl ++ "dispatches/open/")] params in
  let* data := lift (respcheck resp true) in
  log (dbg cmd) [Lit "Created open Dispatch"] data ;;
  let* d_id := lift (getitem data (KStr "id")) in
  let* d2 := display [] in
  let* params := dcu args d2 in
  let* resp := requests_post w [Lit (baseurl ++ "dispatches/close/"); Str d_id; Lit "/"]
                             params in
  let* data := lift (respcheck resp true) in
  log (dbg cmd) [Lit "Closed open Dispatch"] data ;;
  (* a dispatch that already happened *)
  let* reported := lift (add (now_189 w) (- timedelta 60 0 0)) in
  let* completed := lift (add reported (timedelta 0 0 34)) in
  let* dt_code := lift (getitem dispatchtype_data (KStr "code")) in
  let* m_code := lift (getitem machine_data (KStr "code")) in
  let* d2 := display [("dispatchtypecode", dt_code);
                      ("description", PyStr "l2lsdk test dispatch (already closed)");
                      ("machinecode", m_code);
                      ("reported", PyStr (strftime reported API_SECONDS_FORMAT));
                      ("completed", PyStr (strftime completed API_SECONDS_FORMAT))] in
  let* params := dcu args d2 in
  let* resp := requests_post w [Lit (baseurl ++ "dispatches/add/")] params in
  let* data := lift (respcheck resp true) in
  log (dbg cmd) [Lit "Created backdated Dispatch"] data ;;
  (* production data *)
  let* linecode := lift (getitem line_data (KStr "code")) in
  let* d2 := display [("linecode", linecode);
                      ("productcode", PyStr ("testproduct-" ++ pretty (time_206 w)));
                      ("actual", PyInt (randint_207 w));
                      ("scrap", PyInt (randint_208 w));
                      ("operator_count", PyInt (randint_209 w));
                      ("start", PyStr "now");
                      ("end", PyStr "now")] in
  let* params := dcu args d2 in
  let* resp := requests_post w [Lit (baseurl ++ "pitchdetails/record_details/")] params in
  let* data := lift (respcheck resp true) in
  log (dbg cmd) [Lit "Recorded Pitch details"] data ;;
  (* the production report of the line *)
  let* end_ := lift (add (now_217 w) (timedelta 1 0 0)) in
  let start := midnight (now_218 w) in
  let* linecode := lift (getitem line_data (KStr "code")) in
  let* d2 := display [("start", PyStr (strftime start API_MINUTE_FORMAT));
                      ("end", PyStr (strftime end_ API_MINUTE_FORMAT));
                      ("linecode", linecode);
                      ("show_products", PyBool true)] in
  let* params := dcu args d2 in
  let* resp := requests_get w
                 [Lit (baseurl ++ "reporting/production/daily_summary_data_by_line/")]
                 params in
  let* data := lift (respcheck resp true) in
  log (dbg cmd) [Lit "Retrieved Daily summary for line"] data.

(** [main()], after the command line was parsed.  [args] is created at
    line 52 and the site is stored into it at line 69. *)
Definition main (fuel : nat) : M unit :=
  let* args := display [("auth", PyStr (apikey cmd))] in
  let* data := check_site args in
  dict_setitem args "site" (PyInt (site cmd)) ;;
  examples fuel args data.

End Main.

(** ** Statements about runs *)

(** The event writes into the existing object [a]. *)
Definition modifies (a : loc) (e : event) : Prop :=
  match e with
  | ESetItem l _ _ => l = a
  | EUpdate l _ => l = a
  | _ => False
  end.

(** C4 as stated: a 2xx response whose body does not decode makes
    [respcheck] raise the system failure that a failing status gives. *)
Definition undecodable_is_system_failure : Prop :=
  forall resp getdata, is_2xx resp -> json resp = None ->
    exists status body, respcheck resp getdata = Raise (system_failure status body).

(** A service that validates the site and then is down: the request with
    the [test_site] filter is answered with one site, any other request
    with status 500. *)
Definition site_then_down (hist : list event) (req : request) : result Response :=
  match req_params req !! "test_site" with
  | Some _ =>
      Return (mkResponse 200 ""
                (Some (PyDict (envelope_success
                   (PyList [PyDict {["description" := PyStr "Test site"]}])))))
  | None => Return (mkResponse 500 "down" None)
  end.

Definition noon : datetime := mkDatetime 2024 1 5 12 0 0 0.

Definition world_of (t : list event -> request -> result Response) : world :=
  mkWorld t noon noon 1704456000 10 5 0 noon noon.

(** A computation frames the object [a]: started with [a] live, it only
    appends events that do not write into [a], it leaves the items of [a]
    as they were, and the value it returns satisfies [Q]. *)
Definition frames {A} (a : loc) (Q : A -> Prop) (c : M A) : Prop :=
  forall s, is_Some (heap s !! a) ->
    exists t,
      trace (c s).2 = trace s ++ t
      /\ Forall (fun e => ~ modifies a e) t
      /\ heap (c s).2 !! a = heap s !! a
      /\ (forall x, (c s).1 = Ret x -> Q x).

Definition any {A} : A -> Prop := fun _ => True.

(** ** A simulated service for the paging loop *)

(** The remote service is outside the script.  For the paging loop it is
    simulated by a stable list [items]: a request is answered with the at
    most [limit] items that start at [offset], in a success envelope. *)
Definition paged_service (items : list value) (hist : list event) (req : request)
  : result Response :=
  match req_params req !! "limit", req_params req !! "offset" with
  | Some (PyInt limit), Some (PyInt offset) =>
      Return (mkResponse 200 ""
                (Some (PyDict (envelope_success
                   (PyList (take (Z.to_nat limit) (drop (Z.to_nat offset) items)))))))
  | _, _ => Return (mkResponse 400 "limit and offset are required" None)
  end.

(** The page that a request of the trace received, and the requests of a
    trace. *)
Definition page_of (e : event) : option (list value) :=
  match e with
  | ERequest _ (Return resp) =>
      match respcheck resp true with
      | Return (PyList l) => Some l
      | _ => None
      end
  | _ => None
  end.

Definition request_of (e : event) : option request :=
  match e with
  | ERequest req _ => Some req
  | _ => None
  end.

Definition pages (t : list event) : list (list value) := omap page_of t.
Definition requests (t : list event) : list request := omap request_of t.

(** A service that answers every read with one record and every write
    with a record of the created object. *)
Definition cooperative (hist : list event) (req : request) : result Response :=
  let record := PyDict (list_to_map [("id", PyInt 1); ("code", PyStr "X");
                                     ("description", PyStr "D")]) in
  match req_method req with
  | GET => Return (mkResponse 200 "" (Some (PyDict (envelope_success (PyList [record])))))
  | POST => Return (mkResponse 200 "" (Some (PyDict (envelope_success record))))
  end.


(** ** Requests and prints of a run *)

(** A request carries the API key and the site of the command line, and
    goes to the server of the command line. *)
Definition request_ok (cmd : cmdline) (req : request) : Prop :=
  req_params req !! "auth" = Some (PyStr (apikey cmd))
  /\ req_params req !! "site" = Some (PyInt (site cmd))
  /\ exists suffix rest, req_url req = Lit (baseurl cmd ++ suffix) :: rest.

(** An event that a run may show: a request that is in order, and a dump
    of the data only when [dumps] is set. *)
Definition event_ok (cmd : cmdline) (dumps : bool) (e : event) : Prop :=
  match e with
  | ERequest req _ => request_ok cmd req
  | EPrintJson _ => dumps = true
  | _ => True
  end.

(** The object [a] has the items [m], and the events so far are in order. *)
Definition inv (cmd : cmdline) (dumps : bool) (a : loc) (m : gmap string value)
    (s : state) : Prop :=
  heap s !! a = Some m /\ Forall (event_ok cmd dumps) (trace s).

(** A computation keeps that invariant, however it stops. *)
Definition keeps {A} (cmd : cmdline) (dumps : bool) (a : loc) (m : gmap string value)
    (c : M A) : Prop :=
  forall s, inv cmd dumps a m s -> inv cmd dumps a m (c s).2.

(** ** More simulated services *)

(** A service that answers every request with the same response. *)
Definition always (resp : Response) (hist : list event) (req : request)
  : result Response := Return resp.

(** A service that knows one site and no area: a request to the [sites/]
    URL is answered with one site, any other request with an empty list. *)
Definition one_site_no_area (cmd : cmdline) (hist : list event) (req : request)
  : result Response :=
  let empty := mkResponse 200 "" (Some (PyDict (envelope_success (PyList [])))) in
  match req_url req with
  | [Lit u] =>
      if String.eqb u (baseurl cmd ++ "sites/") then
        Return (mkResponse 200 ""
                  (Some (PyDict (envelope_success
                     (PyList [PyDict {["description" := PyStr "Test site"]}])))))
      else Return empty
  | _ => Return empty
  end.

(** ** Timestamps *)

(** The fields of a [datetime] with a four-digit year: the ranges that
    Python's constructor checks, from the year 1000 on. *)
Definition four_digit_year (dt : datetime) : Prop :=
  1000 <= year dt <= 9999
  /\ 1 <= month dt <= 12
  /\ 1 <= day dt <= days_in_month (year dt) (month dt)
  /\ 0 <= hour dt < 24 /\ 0 <= minute dt < 60 /\ 0 <= second dt < 60
  /\ 0 <= microsecond dt < 1000000.

(** * Properties *)

(** ** The response checker *)

Section Respcheck.

Implicit Types (resp : Response) (getdata : bool) (d : gmap string value).

Lemma ok_2xx resp : is_2xx resp -> ok resp = true.
Proof. unfold is_2xx, ok. intros H. apply negb_true_iff. lia. Qed.

Lemma ok_false_iff resp : ok resp = false <-> 400 <= status_code resp < 600.
Proof. unfold ok. rewrite negb_false_iff. lia. Qed.

(** A status that [resp.ok] rejects gives the system failure, whatever
    the body is. *)
Lemma respcheck_not_ok resp getdata :
  ok resp = false ->
  respcheck resp getdata = Raise (system_failure (status_code resp) (content resp)).
Proof. intros H. unfold respcheck. now rewrite H. Qed.

(** With an accepted status and a body that decodes to a dictionary,
    [respcheck] is decided by the dictionary alone. *)
Lemma respcheck_dict resp getdata d :
  ok resp = true -> json resp = Some (PyDict d) ->
  respcheck resp getdata =
    match d !! "success" with
    | None => Raise (KeyError (KStr "success"))
    | Some success =>
        if truthy success then
          if getdata then
            match d !! "data" with
            | Some x => Return x
            | None => Raise (KeyError (KStr "data"))
            end
          else Return (PyDict d)
        else
          match d !! "error" with
          | Some err => Raise (application_failure err)
          | None => Raise (KeyError (KStr "error"))
          end
    end.
Proof.
  intros Hok Hj. unfold respcheck. rewrite Hok, Hj. cbn.
  destruct (d !! "success") as [success|]; cbn; [|reflexivity].
  destruct (truthy success); cbn.
  - destruct getdata; [|reflexivity]. now destruct (d !! "data").
  - now destruct (d !! "error").
Qed.

(** A body that decodes to something else than a dictionary cannot be
    subscripted with a string. *)
Lemma respcheck_not_dict resp getdata (v : value) :
  ok resp = true -> json resp = Some v -> (forall d, v <> PyDict d) ->
  respcheck resp getdata = Raise TypeError.
Proof.
  intros Hok Hj Hv. unfold respcheck. rewrite Hok, Hj.
  destruct v; try reflexivity. now destruct (Hv d).
Qed.

Lemma respcheck_envelope resp (D : value) :
  ok resp = true -> json resp = Some (PyDict (envelope_success D)) ->
  respcheck resp true = Return D
  /\ respcheck resp false = Return (PyDict (envelope_success D)).
Proof.
  intros Hok Hj. rewrite !(respcheck_dict _ _ (envelope_success D)) by assumption.
  unfold envelope_success. rewrite lookup_insert_eq. cbn.
  rewrite lookup_insert_ne by discriminate. now rewrite lookup_insert_eq.
Qed.

End Respcheck.

(** C1, on the code: a response with status 300 (outside the 2xx range)
    and a success envelope as its body is accepted by [respcheck], which
    returns the data instead of raising the system failure. *)
Theorem respcheck_status_300_returns (body : string) (D : value) :
  let resp := mkResponse 300 body (Some (PyDict (envelope_success D))) in
  ~ is_2xx resp /\ respcheck resp true = Return D
  /\ respcheck resp false = Return (PyDict (envelope_success D)).
Proof.
  cbn zeta. split; [unfold is_2xx; cbn; lia|].
  now apply respcheck_envelope.
Qed.

(** C2: for a 2xx response whose body decodes to an envelope with
    [success] true and [data] equal to [D], [respcheck] returns [D] when
    [getdata] is true and the whole envelope when it is false. *)
Theorem respcheck_success (resp : Response) (d : gmap string value) (D : value) :
  is_2xx resp -> json resp = Some (PyDict d) ->
  d !! "success" = Some (PyBool true) -> d !! "data" = Some D ->
  respcheck resp true = Return D /\ respcheck resp false = Return (PyDict d).
Proof.
  intros H2 Hj Hs Hd. apply ok_2xx in H2.
  rewrite !(respcheck_dict _ _ d) by assumption. now rewrite Hs, Hd.
Qed.

Lemma respcheck_success_witness :
  let resp := mkResponse 200 "" (Some (PyDict (envelope_success (PyList [PyInt 7])))) in
  respcheck resp true = Return (PyList [PyInt 7])
  /\ respcheck resp false = Return (PyDict (envelope_success (PyList [PyInt 7]))).
Proof.
  cbn zeta. apply respcheck_success.
  - unfold is_2xx; cbn; lia.
  - reflexivity.
  - reflexivity.
  - reflexivity.
Defined.

(** C3: for a 2xx response whose body decodes to an envelope with
    [success] false and [error] equal to [E], [respcheck] raises the
    application failure carrying [E], whatever [getdata] is. *)
Theorem respcheck_failure (resp : Response) (getdata : bool)
    (d : gmap string value) (E : value) :
  is_2xx resp -> json resp = Some (PyDict d) ->
  d !! "success" = Some (PyBool false) -> d !! "error" = Some E ->
  respcheck resp getdata = Raise (application_failure E).
Proof.
  intros H2 Hj Hs He. apply ok_2xx in H2.
  rewrite (respcheck_dict _ _ d) by assumption. now rewrite Hs, He.
Qed.

Lemma respcheck_failure_witness :
  respcheck (mkResponse 200 "" (Some (PyDict (envelope_failure (PyStr "no such line"))))) false
  = Raise (Exception [Lit "API call failed, error: "; Str (PyStr "no such line")]).
Proof.
  apply (respcheck_failure _ false (envelope_failure (PyStr "no such line"))).
  - unfold is_2xx; cbn; lia.
  - reflexivity.
  - reflexivity.
  - reflexivity.
Defined.

(** C4 as stated fails: with status 200 and a body that is not JSON the
    error is the decoder's. *)
Lemma undecodable_is_system_failure_false : ~ undecodable_is_system_failure.
Proof.
  intros H. destruct (H (mkResponse 200 "<html>" None) true) as (st & b & E).
  - unfold is_2xx; cbn; lia.
  - reflexivity.
  - discriminate E.
Qed.

(** C4, amended: a response with an accepted status whose body does not
    decode never gives a value: [respcheck] lets the decoder's own error
    through, which is of another class than the system failure of a
    failing status. *)
Theorem respcheck_undecodable (resp : Response) (getdata : bool) :
  ok resp = true -> json resp = None ->
  respcheck resp getdata = Raise JSONDecodeError
  /\ forall status body,
       class_of JSONDecodeError <> class_of (system_failure status body).
Proof.
  intros Hok Hj. split.
  - unfold respcheck. now rewrite Hok, Hj.
  - intros st b. discriminate.
Qed.

Lemma respcheck_undecodable_witness :
  respcheck (mkResponse 200 "<html>" None) true = Raise JSONDecodeError.
Proof.
  apply (respcheck_undecodable (mkResponse 200 "<html>" None) true); reflexivity.
Defined.

(** C9: for a 2xx response whose body decodes to a dictionary, a missing
    [success] key, a missing [data] key under a true [success] when
    [getdata] is true, and a missing [error] key under a false [success],
    each make [respcheck] raise [KeyError], which is neither the system
    failure nor the application failure. *)
Theorem respcheck_missing_key (resp : Response) (d : gmap string value) :
  is_2xx resp -> json resp = Some (PyDict d) ->
  (d !! "success" = None ->
     forall getdata, respcheck resp getdata = Raise (KeyError (KStr "success")))
  /\ (d !! "success" = Some (PyBool true) -> d !! "data" = None ->
        respcheck resp true = Raise (KeyError (KStr "data")))
  /\ (d !! "success" = Some (PyBool false) -> d !! "error" = None ->
        forall getdata, respcheck resp getdata = Raise (KeyError (KStr "error")))
  /\ (forall k, class_of (KeyError k) <> CException).
Proof.
  intros H2 Hj. apply ok_2xx in H2. repeat split.
  - intros Hs g. rewrite (respcheck_dict _ _ d) by assumption. now rewrite Hs.
  - intros Hs Hd. rewrite (respcheck_dict _ _ d) by assumption. now rewrite Hs, Hd.
  - intros Hs He g. rewrite (respcheck_dict _ _ d) by assumption. now rewrite Hs, He.
  - intros k. discriminate.
Qed.

Lemma respcheck_missing_key_witness :
  respcheck (mkResponse 200 "" (Some (PyDict {["success" := PyBool true]}))) true
  = Raise (KeyError (KStr "data")).
Proof.
  apply (respcheck_missing_key
           (mkResponse 200 "" (Some (PyDict {["success" := PyBool true]})))
           {["success" := PyBool true]}).
  - unfold is_2xx; cbn; lia.
  - reflexivity.
  - reflexivity.
  - reflexivity.
Defined.

(** ** Datetime formats *)

(** C8: 2024-01-05 13:07:09 formats as "2024-01-05 13:07" with the minute
    format and as "2024-01-05 13:07:09" with the seconds format. *)
Theorem api_formats_example :
  strftime (mkDatetime 2024 1 5 13 7 9 0) API_MINUTE_FORMAT = "2024-01-05 13:07"
  /\ strftime (mkDatetime 2024 1 5 13 7 9 0) API_SECONDS_FORMAT = "2024-01-05 13:07:09".
Proof. split; reflexivity. Qed.

(** ** Dictionary copy and update *)

Section Dcu.

Implicit Types (s : state) (l : loc) (m base overrides : gmap string value).

Lemma fresh_unallocated s : heap s !! fresh (dom (heap s)) = None.
Proof. apply not_elem_of_dom, is_fresh. Qed.

Lemma fresh_ne s l m : heap s !! l = Some m -> l <> fresh (dom (heap s)).
Proof. intros H E. rewrite E, fresh_unallocated in H. discriminate. Qed.

(** What a call of [dcu] on two live dictionaries does to the state. *)
Lemma dcu_run s (d1 d2 : loc) base overrides :
  heap s !! d1 = Some base -> heap s !! d2 = Some overrides ->
  dcu d1 d2 s =
    (Ret (fresh (dom (heap s))),
     mkState (<[fresh (dom (heap s)) := overrides ∪ base]> (heap s))
             (trace s ++ [EAlloc (fresh (dom (heap s))) base;
                          EUpdate (fresh (dom (heap s))) overrides])).
Proof.
  intros H1 H2. unfold dcu, dict_copy, dict_update, dict_items, dict_new, bind, ret.
  rewrite H1. cbn.
  rewrite lookup_insert_ne by (symmetry; eapply fresh_ne; eassumption).
  rewrite H2. cbn. rewrite lookup_insert_eq. cbn.
  rewrite insert_insert_eq, <- app_assoc. reflexivity.
Qed.

Lemma setitem_run s l m k v :
  heap s !! l = Some m ->
  dict_setitem l k v s =
    (Ret tt, mkState (<[l := <[k := v]> m]> (heap s)) (trace s ++ [ESetItem l k v])).
Proof. intros H. unfold dict_setitem, dict_items, bind. now rewrite H. Qed.

Lemma update_run s l (l2 : loc) m (m2 : gmap string value) :
  heap s !! l = Some m -> heap s !! l2 = Some m2 ->
  dict_update l l2 s =
    (Ret tt, mkState (<[l := m2 ∪ m]> (heap s)) (trace s ++ [EUpdate l m2])).
Proof. intros H H2. unfold dict_update, dict_items, bind. now rewrite H2, H. Qed.

End Dcu.

(** C5: [dcu] on a base and an overrides mapping returns a new mapping
    whose keys are those of both, a key of the overrides carrying the
    overrides' value and any other key the base's, and the base object
    keeps its items; so for {a:1,b:2} and {b:3,c:4} the result is
    {a:1,b:3,c:4} and the base still is {a:1,b:2}. *)
Theorem dcu_merges :
  (forall (s : state) (d1 d2 : loc) (base overrides : gmap string value),
     heap s !! d1 = Some base -> heap s !! d2 = Some overrides ->
     exists rval merged s',
       dcu d1 d2 s = (Ret rval, s')
       /\ heap s !! rval = None
       /\ heap s' !! rval = Some merged
       /\ dom merged = dom base ∪ dom overrides
       /\ (forall k v, overrides !! k = Some v -> merged !! k = Some v)
       /\ (forall k, overrides !! k = None -> merged !! k = base !! k)
       /\ heap s' !! d1 = Some base)
  /\ (let base := list_to_map [("a", PyInt 1); ("b", PyInt 2)] in
      let overrides := list_to_map [("b", PyInt 3); ("c", PyInt 4)] in
      let s := mkState (<[1%nat := overrides]> (<[0%nat := base]> ∅)) [] in
      exists rval s',
        dcu 0%nat 1%nat s = (Ret rval, s')
        /\ heap s' !! rval = Some (list_to_map [("a", PyInt 1); ("b", PyInt 3); ("c", PyInt 4)])
        /\ heap s' !! 0%nat = Some base).
Proof.
  split.
  - intros s d1 d2 base overrides H1 H2.
    exists (fresh (dom (heap s))), (overrides ∪ base). eexists.
    split; [apply dcu_run; eassumption|]. cbn.
    split; [apply fresh_unallocated|].
    split; [apply lookup_insert_eq|].
    split; [rewrite dom_union_L; apply union_comm_L|].
    split; [intros k v Hk; now apply lookup_union_Some_l|].
    split; [intros k Hk; now apply lookup_union_r|].
    rewrite lookup_insert_ne by (symmetry; eapply fresh_ne; eassumption).
    assumption.
  - cbn zeta. do 2 eexists. split; [apply dcu_run; reflexivity|].
    cbn. split; [rewrite lookup_insert_eq; f_equal; vm_compute; reflexivity|].
    vm_compute. reflexivity.
Qed.

Lemma dcu_merges_witness :
  let base : gmap string value := list_to_map [("a", PyInt 1); ("b", PyInt 2)] in
  let overrides : gmap string value := list_to_map [("b", PyInt 3); ("c", PyInt 4)] in
  let s := mkState (<[1%nat := overrides]> (<[0%nat := base]> ∅)) [] in
  exists rval merged s',
    dcu 0%nat 1%nat s = (Ret rval, s')
    /\ heap s !! rval = None
    /\ heap s' !! rval = Some merged
    /\ dom merged = dom base ∪ dom overrides
    /\ (forall k v, overrides !! k = Some v -> merged !! k = Some v)
    /\ (forall k, overrides !! k = None -> merged !! k = base !! k)
    /\ heap s' !! 0%nat = Some base.
Proof.
  cbn zeta. apply (proj1 dcu_merges); reflexivity.
Defined.

(** C10: the mapping that [dcu] returns is a new object, different from
    both arguments; the call leaves the overrides object (and the base
    object, and every other object) as it was, and a later write into the
    returned mapping, by item assignment or by [update], changes neither
    argument. *)
Theorem dcu_fresh (s : state) (d1 d2 : loc) (m1 m2 : gmap string value) :
  heap s !! d1 = Some m1 -> heap s !! d2 = Some m2 ->
  exists rval s',
    dcu d1 d2 s = (Ret rval, s')
    /\ (rval ∉ dom (heap s)) /\ rval <> d1 /\ rval <> d2
    /\ (forall l, l <> rval -> heap s' !! l = heap s !! l)
    /\ heap s' !! d1 = Some m1 /\ heap s' !! d2 = Some m2
    /\ (forall k v, exists s'',
          dict_setitem rval k v s' = (Ret tt, s'')
          /\ heap s'' !! d1 = Some m1 /\ heap s'' !! d2 = Some m2)
    /\ (forall l3 m3, heap s' !! l3 = Some m3 -> exists s'',
          dict_update rval l3 s' = (Ret tt, s'')
          /\ heap s'' !! d1 = Some m1 /\ heap s'' !! d2 = Some m2).
Proof.
  intros H1 H2.
  assert (N1 : fresh (dom (heap s)) <> d1) by (symmetry; eapply fresh_ne; eassumption).
  assert (N2 : fresh (dom (heap s)) <> d2) by (symmetry; eapply fresh_ne; eassumption).
  do 2 eexists. split; [apply dcu_run; eassumption|]. cbn.
  split; [apply is_fresh|]. do 2 (split; [assumption|]).
  split; [intros l Hl; apply lookup_insert_ne; congruence|].
  split; [now rewrite lookup_insert_ne|].
  split; [now rewrite lookup_insert_ne|].
  split.
  - intros k v. eexists. split.
    + apply setitem_run. cbn. apply lookup_insert_eq.
    + cbn. now rewrite !lookup_insert_ne.
  - intros l3 m3 H3. eexists. split.
    + eapply update_run; [cbn; apply lookup_insert_eq | exact H3].
    + cbn. now rewrite !lookup_insert_ne.
Qed.

Lemma dcu_fresh_witness :
  let m : gmap string value := {["auth" := PyStr "key"]} in
  let s := mkState (<[0%nat := m]> ∅) [] in
  exists rval s',
    dcu 0%nat 0%nat s = (Ret rval, s')
    /\ (rval ∉ dom (heap s)) /\ rval <> 0%nat /\ rval <> 0%nat
    /\ (forall l, l <> rval -> heap s' !! l = heap s !! l)
    /\ heap s' !! 0%nat = Some m /\ heap s' !! 0%nat = Some m
    /\ (forall k v, exists s'',
          dict_setitem rval k v s' = (Ret tt, s'')
          /\ heap s'' !! 0%nat = Some m /\ heap s'' !! 0%nat = Some m)
    /\ (forall l3 m3, heap s' !! l3 = Some m3 -> exists s'',
          dict_update rval l3 s' = (Ret tt, s'')
          /\ heap s'' !! 0%nat = Some m /\ heap s'' !! 0%nat = Some m).
Proof.
  cbn zeta. apply dcu_fresh; reflexivity.
Defined.

(** ** The base mapping across a run *)

Section Frames.

Variable a : loc.

Lemma frames_weaken {A} (Q R : A -> Prop) (c : M A) :
  frames a Q c -> (forall x, Q x -> R x) -> frames a R c.
Proof.
  intros H HQR s Hs. destruct (H s Hs) as (t & Ht & Hf & Hh & Hq).
  exists t. eauto 6.
Qed.

Lemma frames_ret {A} (Q : A -> Prop) (x : A) : Q x -> frames a Q (ret x).
Proof.
  intros Hx s _. exists []. cbn. rewrite app_nil_r.
  repeat split; auto. intros y [= <-]. exact Hx.
Qed.

Lemma frames_stop {A} (Q : A -> Prop) (o : outcome A) :
  (forall x, o <> Ret x) -> frames a Q (fun s => (o, s)).
Proof.
  intros Ho s _. exists []. cbn. rewrite app_nil_r.
  repeat split; auto. intros y E. now destruct (Ho y).
Qed.

Lemma frames_raise {A} (Q : A -> Prop) (e : exn) : frames a Q (raise e).
Proof. apply frames_stop. discriminate. Qed.

Lemma frames_lift {A} (r : result A) : frames a any (lift r).
Proof. destruct r; [now apply frames_ret | apply frames_raise]. Qed.

Lemma frames_bind {A B} (Q : A -> Prop) (R : B -> Prop) (c : M A) (k : A -> M B) :
  frames a Q c -> (forall x, Q x -> frames a R (k x)) -> frames a R (bind c k).
Proof.
  intros Hc Hk s Hs. destruct (Hc s Hs) as (t & Ht & Hf & Hh & Hq).
  unfold bind. destruct (c s) as [[x| e | |] s1]; cbn in *;
    try (exists t; repeat split; auto; discriminate).
  assert (Hs1 : is_Some (heap s1 !! a)) by now rewrite Hh.
  destruct (Hk x (Hq x eq_refl) s1 Hs1) as (t' & Ht' & Hf' & Hh' & Hq').
  exists (t ++ t'). rewrite Ht', Ht, app_assoc, Hh', Hh.
  repeat split; auto. now apply Forall_app.
Qed.

Lemma frames_seq {A B} (R : B -> Prop) (c : M A) (k : A -> M B) :
  frames a any c -> (forall x, frames a R (k x)) -> frames a R (bind c k).
Proof. intros Hc Hk. apply (frames_bind any); auto. Qed.

Lemma frames_emit (e : event) : ~ modifies a e -> frames a any (emit e).
Proof.
  intros He s _. exists [e]. cbn. repeat split; auto.
Qed.

Lemma frames_log (debug : bool) (msg : text) (data : value) :
  frames a any (log debug msg data).
Proof.
  unfold log. apply frames_seq; [apply frames_emit; tauto|]. intros _.
  destruct debug; [apply frames_emit; tauto | now apply frames_ret].
Qed.

Lemma frames_dict_items (l : loc) : frames a any (dict_items l).
Proof.
  intros s _. exists []. unfold dict_items.
  destruct (heap s !! l); cbn; rewrite app_nil_r; repeat split; auto.
Qed.

(** A new object is not [a]. *)
Lemma frames_dict_new (d : gmap string value) :
  frames a (fun l => l <> a) (dict_new d).
Proof.
  intros s [m Hm]. exists [EAlloc (fresh (dom (heap s))) d]. cbn.
  assert (N : a <> fresh (dom (heap s))) by (eapply fresh_ne; eassumption).
  repeat split; auto.
  - now rewrite lookup_insert_ne.
  - intros x [= <-]. congruence.
Qed.

Lemma frames_dict_update (l l2 : loc) : l <> a -> frames a any (dict_update l l2).
Proof.
  intros N. unfold dict_update.
  apply frames_seq; [apply frames_dict_items|]. intros d2.
  apply frames_seq; [apply frames_dict_items|]. intros d.
  intros s _. exists [EUpdate l d2]. cbn. repeat split; auto.
  now rewrite lookup_insert_ne.
Qed.

(** [dcu] writes into its own copy only, whatever its arguments are,
    [a] included. *)
Lemma frames_dcu (d1 d2 : loc) : frames a (fun l => l <> a) (dcu d1 d2).
Proof.
  unfold dcu, dict_copy.
  apply (frames_bind (fun l => l <> a)).
  - apply frames_seq; [apply frames_dict_items|]. intros d. apply frames_dict_new.
  - intros rval N. apply frames_seq; [now apply frames_dict_update|].
    intros _. now apply frames_ret.
Qed.

Lemma frames_display (items : list (string * value)) : frames a any (display items).
Proof. eapply frames_weaken; [apply frames_dict_new|]. now intros. Qed.

Lemma frames_dcu_any (d1 d2 : loc) : frames a any (dcu d1 d2).
Proof. eapply frames_weaken; [apply frames_dcu|]. now intros. Qed.

Lemma frames_send (w : world) (m : method) (url : text) (params : loc) :
  frames a any (send w m url params).
Proof.
  unfold send. apply frames_seq; [apply frames_dict_items|]. intros d.
  intros s _. exists [ERequest (mkRequest m url d) (transport w (trace s) (mkRequest m url d))].
  destruct (transport w (trace s) (mkRequest m url d)); cbn; repeat split; auto;
    discriminate.
Qed.

End Frames.

(** One step of the symbolic run of a framed block. *)
Ltac frame_step :=
  lazymatch goal with
  | |- frames _ _ (bind _ _) => apply frames_seq; [|intros ?]
  | |- frames _ _ (if ?b then _ else _) => destruct b
  | |- frames _ _ (lift _) => apply frames_lift
  | |- frames _ _ (ret _) => apply frames_ret; exact I
  | |- frames _ _ (raise _) => apply frames_raise
  | |- frames _ _ (log _ _ _) => apply frames_log
  | |- frames _ _ (display _) => apply frames_display
  | |- frames _ _ (dcu _ _) => apply frames_dcu_any
  | |- frames _ _ (requests_get _ _ _) => apply frames_send
  | |- frames _ _ (requests_post _ _ _) => apply frames_send
  end.

Section MainFrames.

Variables (w : world) (cmd : cmdline) (a : loc).

Lemma frames_area_loop (fuel : nat) (args : loc) (limit offset : Z) (area_data : value) :
  frames a any (area_loop w cmd fuel args limit offset area_data).
Proof.
  revert offset area_data.
  induction fuel as [|fuel IH]; intros offset area_data; cbn [area_loop].
  - apply frames_stop. discriminate.
  - repeat first [apply IH | frame_step].
Qed.

Lemma frames_first_or_raise (data : value) (msg : string) :
  frames a any (first_or_raise data msg).
Proof. unfold first_or_raise. repeat frame_step. Qed.

Lemma frames_check_site (args : loc) : frames a any (check_site w cmd args).
Proof. unfold check_site. repeat frame_step. Qed.

Lemma frames_examples (fuel : nat) (args : loc) (data : value) :
  frames a any (examples w cmd fuel args data).
Proof.
  unfold examples.
  repeat first [apply frames_area_loop | apply frames_first_or_raise | frame_step].
Qed.

End MainFrames.


(** C7: the base mapping is constructed in two steps, its creation with
    the API key (line 52) and, once the site is validated, the assignment
    of the site (line 69).  The validating call in between does not write
    into it; when the validation fails the run ends there; and when it
    succeeds the site is assigned and from then on no step of the run
    writes into the mapping: every later event, the writes of every [dcu]
    included, is on another object, and the mapping holds the key and the
    site to the end of the run. *)
Theorem args_read_only_after_construction (w : world) (cmd : cmdline) (fuel : nat)
    (s0 : state) :
  let a := fresh (dom (heap s0)) in
  let auth : gmap string value := list_to_map [("auth", PyStr (apikey cmd))] in
  let s1 := mkState (<[a := auth]> (heap s0)) (trace s0 ++ [EAlloc a auth]) in
  let checked := check_site w cmd a s1 in
  let run := main w cmd fuel s0 in
  (exists t1,
     trace checked.2 = trace s1 ++ t1
     /\ Forall (fun e => ~ modifies a e) t1
     /\ heap checked.2 !! a = Some auth)
  /\ (forall data, checked.1 = Ret data ->
        exists t2,
          trace run.2 = trace checked.2 ++ ESetItem a "site" (PyInt (site cmd)) :: t2
          /\ Forall (fun e => ~ modifies a e) t2
          /\ heap run.2 !! a = Some (<["site" := PyInt (site cmd)]> auth))
  /\ ((forall data, checked.1 <> Ret data) -> run.2 = checked.2).
Proof.
  intros a auth s1. cbn zeta.
  assert (Em : main w cmd fuel s0
               = (let* data := check_site w cmd a in
                  dict_setitem a "site" (PyInt (site cmd)) ;;
                  examples w cmd fuel a data) s1) by reflexivity.
  assert (H1 : heap s1 !! a = Some auth) by apply lookup_insert_eq.
  destruct (frames_check_site w cmd a a s1) as (t1 & Ht1 & Hf1 & Hh1 & _); [eauto|].
  rewrite H1 in Hh1.
  split; [exists t1; auto|].
  destruct (check_site w cmd a s1) as [[data| e | |] s2] eqn:Ec; cbn [fst snd] in *.
  - set (s3 := mkState (<[a := <["site" := PyInt (site cmd)]> auth]> (heap s2))
                       (trace s2 ++ [ESetItem a "site" (PyInt (site cmd))])).
    assert (Er : main w cmd fuel s0 = examples w cmd fuel a data s3).
    { rewrite Em. unfold bind at 1. rewrite Ec. unfold bind at 1.
      now rewrite (setitem_run s2 a auth) by assumption. }
    assert (H3 : heap s3 !! a = Some (<["site" := PyInt (site cmd)]> auth))
      by apply lookup_insert_eq.
    destruct (frames_examples w cmd a fuel a data s3) as (t2 & Ht2 & Hf2 & Hh2 & _);
      [eauto|].
    split.
    + intros data' _. exists t2. rewrite Er, Ht2, Hh2. cbn [trace s3].
      rewrite <- app_assoc. auto.
    + intros Hn. now destruct (Hn data).
  - assert (Er : main w cmd fuel s0 = (Exn e, s2))
      by (rewrite Em; unfold bind at 1; now rewrite Ec).
    split; [discriminate | now rewrite Er].
  - assert (Er : main w cmd fuel s0 = (OutOfFuel, s2))
      by (rewrite Em; unfold bind at 1; now rewrite Ec).
    split; [discriminate | now rewrite Er].
  - assert (Er : main w cmd fuel s0 = (Dangling, s2))
      by (rewrite Em; unfold bind at 1; now rewrite Ec).
    split; [discriminate | now rewrite Er].
Qed.

Lemma args_read_only_after_construction_witness :
  let w := world_of site_then_down in
  let cmd := mkCmdline false "host" 1 "user" "key" in
  let s0 := mkState ∅ [] in
  let a := fresh (dom (heap s0)) in
  let auth : gmap string value := list_to_map [("auth", PyStr (apikey cmd))] in
  let s1 := mkState (<[a := auth]> (heap s0)) (trace s0 ++ [EAlloc a auth]) in
  let checked := check_site w cmd a s1 in
  let run := main w cmd 1 s0 in
  exists t2,
    trace run.2 = trace checked.2 ++ ESetItem a "site" (PyInt (site cmd)) :: t2
    /\ Forall (fun e => ~ modifies a e) t2
    /\ heap run.2 !! a = Some (<["site" := PyInt (site cmd)]> auth).
Proof.
  cbn zeta.
  apply (proj1 (proj2 (args_read_only_after_construction
                         (world_of site_then_down)
                         (mkCmdline false "host" 1 "user" "key") 1 (mkState ∅ [])))
           (PyList [PyDict {["description" := PyStr "Test site"]}])).
  vm_compute. reflexivity.
Defined.

(** ** The paging loop against a stable list *)

Section Paging.

Variables (w : world) (cmd : cmdline) (items : list value).
Hypothesis service : transport w = paged_service items.

Variables (args : loc) (d : gmap string value).

(** One iteration: the request is made with the current offset, the
    page is the slice of the list, and the loop goes on from a state in
    which [args] is as before. *)
Lemma area_loop_step (fuel : nat) (limit offset : Z) (area_data : value) (s : state) :
  heap s !! args = Some d ->
  let page := take (Z.to_nat limit) (drop (Z.to_nat offset) items) in
  exists s' t,
    heap s' !! args = Some d
    /\ trace s' = trace s ++ t
    /\ pages t = [page]
    /\ (exists req, requests t = [req]
          /\ req_params req !! "limit" = Some (PyInt limit)
          /\ req_params req !! "offset" = Some (PyInt offset))
    /\ area_loop w cmd (S fuel) args limit offset area_data s =
         (if Z.of_nat (length page) <? limit then
            if truthy (PyList page) then lift (getitem (PyList page) (KInt (-1)))
            else ret area_data
          else
            let* last := lift (getitem (PyList page) (KInt (-1))) in
            area_loop w cmd fuel args limit (offset + Z.of_nat (length page)) last) s'.
Proof.
  intros Hargs page.
  set (d2 := list_to_map [("active", PyBool true); ("limit", PyInt limit);
                          ("offset", PyInt offset)] : gmap string value).
  set (l2 := fresh (dom (heap s))).
  set (s1 := mkState (<[l2 := d2]> (heap s)) (trace s ++ [EAlloc l2 d2])).
  assert (N : args <> l2) by (eapply fresh_ne; eassumption).
  assert (Hs1 : heap s1 !! args = Some d) by (cbn; now rewrite lookup_insert_ne).
  assert (Hl2 : heap s1 !! l2 = Some d2) by apply lookup_insert_eq.
  pose proof (dcu_run s1 args l2 d d2 Hs1 Hl2) as Hdcu.
  set (r := fresh (dom (heap s1))) in Hdcu.
  assert (N' : args <> r) by (eapply fresh_ne; eassumption).
  set (s2 := mkState _ _) in Hdcu.
  assert (Hlim : (d2 ∪ d) !! "limit" = Some (PyInt limit))
    by (apply lookup_union_Some_l; reflexivity).
  assert (Hoff : (d2 ∪ d) !! "offset" = Some (PyInt offset))
    by (apply lookup_union_Some_l; reflexivity).
  set (req := mkRequest GET [Lit (baseurl cmd ++ "areas/")] (d2 ∪ d)).
  set (resp := mkResponse 200 "" (Some (PyDict (envelope_success (PyList page))))).
  assert (Hresp : transport w (trace s2) req = Return resp).
  { rewrite service. unfold paged_service. cbn [req_params req].
    now rewrite Hlim, Hoff. }
  assert (Hcheck : respcheck resp true = Return (PyList page))
    by now apply respcheck_envelope.
  exists (mkState (heap s2) (trace s2 ++ [ERequest req (Return resp)])).
  exists [EAlloc l2 d2; EAlloc r d; EUpdate r d2; ERequest req (Return resp)].
  split; [cbn; now rewrite lookup_insert_ne|].
  split; [cbn; now rewrite <- !app_assoc|].
  split; [unfold pages; cbn -[respcheck]; now rewrite Hcheck|].
  split; [exists req; repeat split; assumption|].
  cbn [area_loop]. unfold display. fold d2.
  unfold bind at 1. unfold dict_new at 1. fold l2. fold s1.
  unfold bind at 1. rewrite Hdcu.
  unfold bind at 1. unfold requests_get, send, bind at 1, dict_items.
  replace (heap s2 !! r) with (Some (d2 ∪ d)) by (symmetry; apply lookup_insert_eq).
  fold req. rewrite Hresp.
  unfold bind at 1. rewrite Hcheck. cbn [lift ret].
  unfold bind at 1. cbn [len lift ret]. reflexivity.
Qed.

Lemma getitem_last (l : list value) :
  l <> [] -> exists x, last l = Some x /\ getitem (PyList l) (KInt (-1)) = Return x.
Proof.
  intros Hl. destruct (last l) as [x|] eqn:E.
  - exists x. split; [reflexivity|]. rewrite last_lookup in E.
    cbn. unfold seq_index.
    assert (0 < length l)%nat by (destruct l; [congruence | cbn; lia]).
    replace (-1 <? 0) with true by reflexivity.
    destruct ((-1 + Z.of_nat (length l) <? 0)
              || (Z.of_nat (length l) <=? -1 + Z.of_nat (length l))) eqn:B; [lia|].
    replace (Z.to_nat (-1 + Z.of_nat (length l))) with (pred (length l)) by lia.
    now rewrite E.
  - apply last_None in E. contradiction.
Qed.

(** The loop ends on any stable list when the page size is positive, and
    the pages it received are the list from the starting offset on. *)
Lemma area_loop_visits_all (limit : nat) :
  (0 < limit)%nat ->
  forall (fuel offset : nat) (area_data : value) (s : state),
    heap s !! args = Some d ->
    (length items - offset < fuel * limit)%nat ->
    exists v s' t,
      area_loop w cmd fuel args (Z.of_nat limit) (Z.of_nat offset) area_data s
        = (Ret v, s')
      /\ trace s' = trace s ++ t
      /\ concat (pages t) = drop offset items
      /\ heap s' !! args = Some d.
Proof.
  intros Hlim. induction fuel as [|fuel IH]; intros offset area_data s Hs Hlen; [lia|].
  destruct (area_loop_step fuel (Z.of_nat limit) (Z.of_nat offset) area_data s Hs)
    as (s1 & t1 & H1 & Ht1 & Hp1 & _ & E1).
  rewrite !Nat2Z.id in *.
  set (page := take limit (drop offset items)) in *.
  assert (Hpage : length page = Nat.min limit (length items - offset))
    by (unfold page; rewrite length_take, length_drop; lia).
  rewrite E1. destruct (Z.of_nat (length page) <? Z.of_nat limit) eqn:B.
  - assert (Hall : page = drop offset items)
      by (unfold page; apply take_ge; rewrite length_drop; lia).
    destruct page as [|x page'] eqn:Ep.
    + exists area_data, s1, t1. rewrite Hp1. cbn. now rewrite <- Hall.
    + destruct (getitem_last (x :: page')) as (y & _ & Hy); [discriminate|].
      exists y, s1, t1. cbn [truthy]. rewrite Hy, Hp1. cbn.
      rewrite app_nil_r. auto.
  - assert (Hfull : length page = limit) by lia.
    destruct (getitem_last page) as (y & _ & Hy);
      [intros ->; cbn in Hfull; lia|].
    unfold bind. rewrite Hy. cbn [lift ret].
    rewrite Hfull, <- Nat2Z.inj_add.
    destruct (IH (offset + limit)%nat y s1 H1) as (v & s2 & t2 & E2 & Ht2 & Hp2 & H2);
      [lia|].
    exists v, s2, (t1 ++ t2). rewrite E2, Ht2, Ht1, <- app_assoc.
    repeat split; auto.
    unfold pages in *. rewrite omap_app, Hp1, concat_app, Hp2. cbn.
    rewrite app_nil_r. unfold page.
    rewrite <- drop_drop. apply take_drop.
Qed.

End Paging.

(** C6: against a stable list of five items, the loop started at offset 0
    with limit 2 makes exactly three requests, at offsets 0, 2 and 4,
    receives pages of 2, 2 and 1 items that together are the five items in
    order, and ends after the third page with the last item. *)
Theorem paging_five_items (w : world) (cmd : cmdline) (x1 x2 x3 x4 x5 : value)
    (args : loc) (d : gmap string value) (s : state) (fuel : nat) :
  transport w = paged_service [x1; x2; x3; x4; x5] ->
  heap s !! args = Some d ->
  exists s' t,
    area_loop w cmd (3 + fuel) args 2 0 PyNone s = (Ret x5, s')
    /\ trace s' = trace s ++ t
    /\ pages t = [[x1; x2]; [x3; x4]; [x5]]
    /\ concat (pages t) = [x1; x2; x3; x4; x5]
    /\ (fun req => (req_params req !! "limit", req_params req !! "offset")) <$> requests t
       = [(Some (PyInt 2), Some (PyInt 0)); (Some (PyInt 2), Some (PyInt 2));
          (Some (PyInt 2), Some (PyInt 4))].
Proof.
  intros Hw H0.
  destruct (area_loop_step w cmd _ Hw args d (2 + fuel) 2 0 PyNone s H0)
    as (s1 & t1 & H1 & Ht1 & Hp1 & (r1 & Hr1 & Hl1 & Ho1) & E1).
  cbn -[area_loop] in E1, Hp1.
  destruct (area_loop_step w cmd _ Hw args d (1 + fuel) 2 2 x2 s1 H1)
    as (s2 & t2 & H2 & Ht2 & Hp2 & (r2 & Hr2 & Hl2 & Ho2) & E2).
  cbn -[area_loop] in E2, Hp2.
  destruct (area_loop_step w cmd _ Hw args d fuel 2 4 x4 s2 H2)
    as (s3 & t3 & H3 & Ht3 & Hp3 & (r3 & Hr3 & Hl3 & Ho3) & E3).
  cbn -[area_loop] in E3, Hp3.
  exists s3, (t1 ++ t2 ++ t3).
  split; [etransitivity; [exact E1|]; etransitivity; [exact E2|]; exact E3|].
  split; [now rewrite Ht3, Ht2, Ht1, <- !app_assoc|].
  unfold pages, requests in *. rewrite !omap_app, Hp1, Hp2, Hp3, Hr1, Hr2, Hr3.
  cbn. now rewrite Hl1, Hl2, Hl3, Ho1, Ho2, Ho3.
Qed.

Lemma paging_five_items_witness :
  let items := [PyInt 1; PyInt 2; PyInt 3; PyInt 4; PyInt 5] in
  let w := world_of (paged_service items) in
  let cmd := mkCmdline false "host" 1 "user" "key" in
  let s := mkState {[0%nat := {["auth" := PyStr "key"]}]} [] in
  exists s' t,
    area_loop w cmd 3 0%nat 2 0 PyNone s = (Ret (PyInt 5), s')
    /\ trace s' = trace s ++ t
    /\ pages t = [[PyInt 1; PyInt 2]; [PyInt 3; PyInt 4]; [PyInt 5]]
    /\ concat (pages t) = items
    /\ (fun req => (req_params req !! "limit", req_params req !! "offset")) <$> requests t
       = [(Some (PyInt 2), Some (PyInt 0)); (Some (PyInt 2), Some (PyInt 2));
          (Some (PyInt 2), Some (PyInt 4))].
Proof.
  cbn zeta.
  apply (paging_five_items (world_of (paged_service _)) _ _ _ _ _ _ 0%nat
           {["auth" := PyStr "key"]} _ 0%nat); reflexivity.
Defined.

(** A complete run: against a service that answers every call with a
    success envelope the script ends normally after its fifteen calls, and
    [args] then holds the key and the site. *)
Example main_completes :
  let run := main (world_of cooperative) (mkCmdline true "host" 1 "user" "key") 5
                  (mkState ∅ []) in
  run.1 = Ret tt
  /\ length (requests (trace run.2)) = 15%nat
  /\ heap run.2 !! 0%nat = Some (list_to_map [("auth", PyStr "key"); ("site", PyInt 1)]).
Proof. vm_compute. repeat split. Qed.


(** * Further properties *)

(** ** The response checker, case by case *)

(** X1: [respcheck] returns a value exactly when the status is accepted,
    the body decodes to a dictionary whose [success] item is truthy, and,
    when the data is asked for, the dictionary has a [data] item; the value
    is that item, or else the dictionary itself. *)
Theorem respcheck_returns_iff (resp : Response) (getdata : bool) (v : value) :
  respcheck resp getdata = Return v
  <-> ok resp = true
      /\ exists d success,
           json resp = Some (PyDict d)
           /\ d !! "success" = Some success /\ truthy success = true
           /\ (if getdata then d !! "data" = Some v else v = PyDict d).
Proof.
  split.
  - unfold respcheck. destruct (ok resp) eqn:Hok; [|discriminate]. cbn.
    destruct (json resp) as [body|] eqn:Hj; [|discriminate].
    destruct body; cbn; try discriminate.
    destruct (d !! "success") as [success|] eqn:Hs; cbn; [|discriminate].
    destruct (truthy success) eqn:Ht; cbn.
    + intros H. split; [reflexivity|]. exists d, success.
      repeat split; try assumption.
      destruct getdata.
      * destruct (d !! "data"); [congruence | discriminate].
      * congruence.
    + destruct (d !! "error"); discriminate.
  - intros (Hok & d & success & Hj & Hs & Ht & Hv).
    rewrite (respcheck_dict _ _ d) by assumption. rewrite Hs, Ht.
    destruct getdata; [now rewrite Hv | congruence].
Qed.

(** X2: [respcheck] raises the system failure exactly for a status that
    [resp.ok] rejects, a status from 400 to 599, and the message then
    carries that status and the raw body, whatever the body is. *)
Theorem respcheck_system_failure_iff (resp : Response) (getdata : bool)
    (status : Z) (body : string) :
  respcheck resp getdata = Raise (system_failure status body)
  <-> 400 <= status_code resp < 600
      /\ status = status_code resp /\ body = content resp.
Proof.
  rewrite <- ok_false_iff. split.
  - unfold respcheck. destruct (ok resp) eqn:Hok; cbn.
    + destruct (json resp) as [b|]; [|discriminate].
      destruct b; cbn; try discriminate.
      destruct (d !! "success") as [success|]; cbn; [|discriminate].
      destruct (truthy success); cbn.
      * destruct getdata; [destruct (d !! "data")|]; discriminate.
      * destruct (d !! "error"); discriminate.
    + unfold system_failure. intros [= <- <-]. auto.
  - intros (Hok & -> & ->). now apply respcheck_not_ok.
Qed.

(** X3: [respcheck] raises the application failure with the message [E]
    exactly when the status is accepted and the body decodes to a
    dictionary whose [success] item is falsy (false, 0, null, an empty
    string or container) and whose [error] item is [E]; a [data] item in
    such a body is ignored. *)
Theorem respcheck_application_failure_iff (resp : Response) (getdata : bool)
    (E : value) :
  respcheck resp getdata = Raise (application_failure E)
  <-> ok resp = true
      /\ exists d success,
           json resp = Some (PyDict d)
           /\ d !! "success" = Some success /\ truthy success = false
           /\ d !! "error" = Some E.
Proof.
  split.
  - unfold respcheck. destruct (ok resp) eqn:Hok; [|discriminate]. cbn.
    destruct (json resp) as [b|] eqn:Hj; [|discriminate].
    destruct b; cbn; try discriminate.
    destruct (d !! "success") as [success|] eqn:Hs; cbn; [|discriminate].
    destruct (truthy success) eqn:Ht; cbn.
    + destruct getdata; [destruct (d !! "data")|]; discriminate.
    + destruct (d !! "error") as [err|] eqn:He; [|discriminate].
      unfold application_failure. intros [= <-].
      split; [reflexivity|]. exists d, success. auto.
  - intros (Hok & d & success & Hj & Hs & Ht & He).
    rewrite (respcheck_dict _ _ d) by assumption. now rewrite Hs, Ht, He.
Qed.

(** X4: with an accepted status, a body that decodes to anything else
    than a dictionary (an array, a string, a number, null) makes
    [respcheck] raise [TypeError], for either value of [getdata]. *)
Theorem respcheck_non_object_body (resp : Response) (getdata : bool) (v : value) :
  ok resp = true -> json resp = Some v -> (forall d, v <> PyDict d) ->
  respcheck resp getdata = Raise TypeError.
Proof. apply respcheck_not_dict. Qed.

Lemma respcheck_non_object_body_witness :
  respcheck (mkResponse 200 "[]" (Some (PyList []))) true = Raise TypeError.
Proof.
  apply (respcheck_non_object_body (mkResponse 200 "[]" (Some (PyList []))) true
           (PyList [])).
  - reflexivity.
  - reflexivity.
  - intros d. discriminate.
Defined.

(** ** Merging, composed *)

(** X5: merging an empty overrides mapping, as the call that closes a
    dispatch does, gives a new object with exactly the items of the base. *)
Theorem dcu_empty_overrides (s : state) (d1 d2 : loc) (base : gmap string value) :
  heap s !! d1 = Some base -> heap s !! d2 = Some ∅ ->
  exists rval s',
    dcu d1 d2 s = (Ret rval, s')
    /\ rval <> d1 /\ heap s' !! rval = Some base /\ heap s' !! d1 = Some base.
Proof.
  intros H1 H2.
  assert (N : fresh (dom (heap s)) <> d1) by (symmetry; eapply fresh_ne; eassumption).
  do 2 eexists. split; [apply dcu_run; eassumption|]. cbn.
  split; [assumption|].
  split; [rewrite lookup_insert_eq; f_equal; apply (left_id_L ∅ (∪))|].
  now rewrite lookup_insert_ne.
Qed.

Lemma dcu_empty_overrides_witness :
  let base : gmap string value := {["auth" := PyStr "key"]} in
  let s := mkState (<[1%nat := ∅]> (<[0%nat := base]> ∅)) [] in
  exists rval s',
    dcu 0%nat 1%nat s = (Ret rval, s')
    /\ rval <> 0%nat /\ heap s' !! rval = Some base /\ heap s' !! 0%nat = Some base.
Proof.
  cbn zeta. apply dcu_empty_overrides; reflexivity.
Defined.

(** X6: merging is associative on the items: merging [c] over the merge
    of [b] over [a] gives the same items as merging, over [a], the merge
    of [c] over [b]; in both orders a key takes the value of the last
    mapping that has it. *)
Theorem dcu_assoc (s : state) (a b c : loc) (ma mb mc : gmap string value) :
  heap s !! a = Some ma -> heap s !! b = Some mb -> heap s !! c = Some mc ->
  exists ab s1 abc s2 bc s3 abc' s4,
    dcu a b s = (Ret ab, s1) /\ dcu ab c s1 = (Ret abc, s2)
    /\ dcu b c s = (Ret bc, s3) /\ dcu a bc s3 = (Ret abc', s4)
    /\ heap s2 !! abc = Some (mc ∪ (mb ∪ ma))
    /\ heap s4 !! abc' = heap s2 !! abc.
Proof.
  intros Ha Hb Hc.
  pose proof (dcu_run s a b ma mb Ha Hb) as E1.
  set (ab := fresh (dom (heap s))) in *. set (s1 := mkState _ _) in E1.
  assert (Nc : c <> ab) by (eapply fresh_ne; eassumption).
  assert (Na : a <> ab) by (eapply fresh_ne; eassumption).
  assert (Hab : heap s1 !! ab = Some (mb ∪ ma)) by apply lookup_insert_eq.
  assert (Hc1 : heap s1 !! c = Some mc) by (cbn; now rewrite lookup_insert_ne).
  pose proof (dcu_run s1 ab c _ _ Hab Hc1) as E2.
  pose proof (dcu_run s b c mb mc Hb Hc) as E3.
  fold ab in E3. set (s3 := mkState _ _) in E3.
  assert (Hbc : heap s3 !! ab = Some (mc ∪ mb)) by apply lookup_insert_eq.
  assert (Ha3 : heap s3 !! a = Some ma) by (cbn; now rewrite lookup_insert_ne).
  pose proof (dcu_run s3 a ab _ _ Ha3 Hbc) as E4.
  do 8 eexists.
  split; [exact E1|]. split; [exact E2|]. split; [exact E3|]. split; [exact E4|].
  cbn. rewrite !lookup_insert_eq. split; [reflexivity|].
  f_equal. symmetry. apply (assoc_L (∪)).
Qed.

Lemma dcu_assoc_witness :
  let ma : gmap string value := {["auth" := PyStr "key"]} in
  let mb : gmap string value := {["site" := PyInt 1]} in
  let mc : gmap string value := {["site" := PyInt 2]} in
  let s := mkState (<[2%nat := mc]> (<[1%nat := mb]> (<[0%nat := ma]> ∅))) [] in
  exists ab s1 abc s2 bc s3 abc' s4,
    dcu 0%nat 1%nat s = (Ret ab, s1) /\ dcu ab 2%nat s1 = (Ret abc, s2)
    /\ dcu 1%nat 2%nat s = (Ret bc, s3) /\ dcu 0%nat bc s3 = (Ret abc', s4)
    /\ heap s2 !! abc = Some (mc ∪ (mb ∪ ma))
    /\ heap s4 !! abc' = heap s2 !! abc.
Proof.
  cbn zeta. apply dcu_assoc; reflexivity.
Defined.


(** ** One call of the service *)

Section Call.

Variable w : world.

(** The three steps of every call of the script: the display of the
    parameters of the call, their merge over [args], and the request. *)
Lemma call_run {A} (meth : method) (url : text) (items : list (string * value))
    (args : loc) (m : gmap string value) (k : Response -> M A) (s : state) :
  heap s !! args = Some m ->
  let d2 : gmap string value := list_to_map items in
  let l2 := fresh (dom (heap s)) in
  let h1 := <[l2 := d2]> (heap s) in
  let r := fresh (dom h1) in
  let pre := trace s ++ [EAlloc l2 d2; EAlloc r m; EUpdate r d2] in
  let req := mkRequest meth url (d2 ∪ m) in
  let s' := mkState (<[r := d2 ∪ m]> h1) (pre ++ [ERequest req (transport w pre req)]) in
  (let* l := display items in
   let* params := dcu args l in
   let* resp := send w meth url params in
   k resp) s
  = match transport w pre req with
    | Return resp => k resp s'
    | Raise e => (Exn e, s')
    end.
Proof.
  intros Hargs d2 l2 h1 r pre req s'.
  set (s1 := mkState h1 (trace s ++ [EAlloc l2 d2])).
  assert (N : args <> l2) by (eapply fresh_ne; eassumption).
  assert (Hs1 : heap s1 !! args = Some m) by (cbn; unfold h1; now rewrite lookup_insert_ne).
  assert (Hl2 : heap s1 !! l2 = Some d2) by apply lookup_insert_eq.
  pose proof (dcu_run s1 args l2 m d2 Hs1 Hl2) as Hdcu.
  cbn [heap trace s1] in Hdcu. fold r in Hdcu. rewrite <- app_assoc in Hdcu.
  cbn [app] in Hdcu. fold pre in Hdcu.
  unfold display. unfold bind at 1. unfold dict_new at 1. fold d2 l2 h1. fold s1.
  unfold bind at 1. rewrite Hdcu.
  unfold bind at 1. unfold send, bind at 1, dict_items. cbn [heap trace].
  rewrite lookup_insert_eq. fold req. unfold bind. cbn [heap trace].
  destruct (transport w pre req); reflexivity.
Qed.

End Call.

(** ** What every run sends and prints *)

Section Keeps.

Variables (w : world) (cmd : cmdline) (dumps : bool).
Variables (a : loc) (m : gmap string value).
Hypothesis dump_allowed : dbg cmd = true -> dumps = true.
Hypothesis m_auth : m !! "auth" = Some (PyStr (apikey cmd)).

Lemma keeps_ret {A} (x : A) : keeps cmd dumps a m (ret x).
Proof. now intros s H. Qed.

Lemma keeps_raise {A} (e : exn) : keeps cmd dumps a m (@raise A e).
Proof. now intros s H. Qed.

Lemma keeps_lift {A} (r : result A) : keeps cmd dumps a m (lift r).
Proof. destruct r; [apply keeps_ret | apply keeps_raise]. Qed.

Lemma keeps_bind {A B} (c : M A) (k : A -> M B) :
  keeps cmd dumps a m c -> (forall x, keeps cmd dumps a m (k x)) ->
  keeps cmd dumps a m (bind c k).
Proof.
  intros Hc Hk s Hs. specialize (Hc s Hs). unfold bind.
  destruct (c s) as [[x| e | |] s1]; cbn in *; try assumption.
  now apply Hk.
Qed.

Lemma keeps_log (msg : text) (data : value) : keeps cmd dumps a m (log (dbg cmd) msg data).
Proof.
  intros s [Hh Ht]. unfold log, bind, emit, ret. cbn.
  destruct (dbg cmd) eqn:D; cbn; split; try assumption;
    repeat (apply Forall_app; split); auto; repeat constructor.
  now apply dump_allowed.
Qed.

(** A call keeps the invariant when its request is in order. *)
Lemma keeps_call {A} (meth : method) (url : text) (items : list (string * value))
    (k : Response -> M A) :
  request_ok cmd (mkRequest meth url (list_to_map items ∪ m)) ->
  (forall resp, keeps cmd dumps a m (k resp)) ->
  keeps cmd dumps a m (let* l := display items in
         let* params := dcu a l in
         let* resp := send w meth url params in
         k resp).
Proof.
  intros Hreq Hk s [Hh Ht]. rewrite (call_run w meth url items a m k s Hh). cbn zeta.
  set (l2 := fresh (dom (heap s))).
  set (h1 := <[l2 := list_to_map items]> (heap s)).
  set (r := fresh (dom h1)).
  set (pre := trace s ++ _). set (req := mkRequest _ _ _) in *.
  assert (N : a <> l2) by (eapply fresh_ne; eassumption).
  assert (Hh1 : h1 !! a = Some m) by (unfold h1; now rewrite lookup_insert_ne).
  assert (N' : a <> r)
    by (apply (fresh_ne (mkState h1 []) a m); exact Hh1).
  set (s' := mkState _ _).
  assert (Hs' : inv cmd dumps a m s').
  { split; [cbn; now rewrite lookup_insert_ne|].
    cbn. unfold pre. repeat (apply Forall_app; split); auto; repeat constructor. }
  destruct (transport w pre req) as [resp|e]; [now apply Hk | exact Hs'].
Qed.

End Keeps.

(** The conditions of a request that is in order, from the items of the
    call or from those of [args]. *)
Ltac request_in_order :=
  unfold request_ok; cbn [req_params req_url];
  split; [rewrite lookup_union_r by reflexivity; assumption|];
  split; [first [apply lookup_union_Some_l; reflexivity
                | rewrite lookup_union_r by reflexivity; assumption]|];
  do 2 eexists; reflexivity.

Ltac keeps_step :=
  lazymatch goal with
  | |- keeps _ _ _ _ (bind (display _) _) =>
      apply keeps_call; [request_in_order | intros ?]
  | |- keeps _ _ _ _ (bind _ _) => apply keeps_bind; [|intros ?]
  | |- keeps _ _ _ _ (if ?b then _ else _) => destruct b
  | |- keeps _ _ _ _ (lift _) => apply keeps_lift
  | |- keeps _ _ _ _ (ret _) => apply keeps_ret
  | |- keeps _ _ _ _ (raise _) => apply keeps_raise
  | |- keeps _ _ _ _ (log _ _ _) => apply keeps_log; assumption
  end.

Section MainKeeps.

Variables (w : world) (cmd : cmdline) (dumps : bool).
Variables (a : loc) (m : gmap string value).
Hypothesis dump_allowed : dbg cmd = true -> dumps = true.
Hypothesis m_auth : m !! "auth" = Some (PyStr (apikey cmd)).

Lemma keeps_check_site : keeps cmd dumps a m (check_site w cmd a).
Proof. unfold check_site, requests_get. repeat keeps_step. Qed.

Hypothesis m_site : m !! "site" = Some (PyInt (site cmd)).

Lemma keeps_area_loop (fuel : nat) (limit offset : Z) (area_data : value) :
  keeps cmd dumps a m (area_loop w cmd fuel a limit offset area_data).
Proof.
  revert offset area_data.
  induction fuel as [|fuel IH]; intros offset area_data; cbn [area_loop].
  - now intros s H.
  - unfold requests_get. repeat first [apply IH | keeps_step].
Qed.

Lemma keeps_first_or_raise (data : value) (msg : string) :
  keeps cmd dumps a m (first_or_raise data msg).
Proof. unfold first_or_raise. repeat keeps_step. Qed.

Lemma keeps_examples (fuel : nat) (data : value) :
  keeps cmd dumps a m (examples w cmd fuel a data).
Proof.
  unfold examples, requests_get, requests_post.
  repeat first [apply keeps_area_loop | apply keeps_first_or_raise | keeps_step].
Qed.

End MainKeeps.


Lemma requests_in_order (cmd : cmdline) (dumps : bool) (t : list event) :
  Forall (event_ok cmd dumps) t -> Forall (request_ok cmd) (requests t).
Proof.
  unfold requests. induction 1 as [|e t He _ IH]; cbn; [constructor|].
  destruct e; cbn; try assumption. now constructor.
Qed.

(** The invariant over the whole script: the site is stored into [args]
    between the two blocks that keep it. *)
Lemma main_keeps (w : world) (cmd : cmdline) (dumps : bool) (fuel : nat) (s0 : state) :
  (dbg cmd = true -> dumps = true) ->
  Forall (event_ok cmd dumps) (trace s0) ->
  Forall (event_ok cmd dumps) (trace (main w cmd fuel s0).2).
Proof.
  intros Hd H0. unfold main, bind, display, dict_new.
  set (a := fresh (dom (heap s0))).
  set (auth := list_to_map [("auth", PyStr (apikey cmd))] : gmap string value).
  set (s1 := mkState (<[a := auth]> (heap s0)) (trace s0 ++ [EAlloc a auth])).
  assert (I1 : inv cmd dumps a auth s1).
  { split; [apply lookup_insert_eq|]. cbn. apply Forall_app. split; [assumption|].
    repeat constructor. }
  pose proof (keeps_check_site w cmd dumps a auth eq_refl s1 I1) as I2.
  destruct (check_site w cmd a s1) as [[data| e | |] s2]; cbn [fst snd] in *;
    try (now destruct I2).
  destruct I2 as [H2 T2]. rewrite (setitem_run s2 a auth) by assumption.
  set (s3 := mkState _ _).
  assert (I3 : inv cmd dumps a (<["site" := PyInt (site cmd)]> auth) s3).
  { split; [apply lookup_insert_eq|]. cbn. apply Forall_app. split; [assumption|].
    repeat constructor. }
  refine (proj2 (keeps_examples w cmd dumps a _ Hd _ _ fuel data s3 I3)).
  - reflexivity.
  - apply lookup_insert_eq.
Qed.

(** X7: every request that a run of the script sends, whatever the
    service answers, carries the API key of the command line under [auth]
    and the site of the command line under [site], and goes to a URL under
    [https://<server>/api/1.0/]: no parameter of a call overrides the key,
    and the site is part of the first call before it is part of [args]. *)
Theorem main_requests_in_order (w : world) (cmd : cmdline) (fuel : nat)
    (h : gmap loc (gmap string value)) :
  Forall (request_ok cmd) (requests (trace (main w cmd fuel (mkState h [])).2)).
Proof.
  apply (requests_in_order cmd true), main_keeps; [reflexivity | constructor].
Qed.

(** X8: without the [--dbg] flag a run prints its messages only: no
    response data is ever dumped, whatever the service answers. *)
Theorem main_quiet_without_dbg (w : world) (cmd : cmdline) (fuel : nat)
    (h : gmap loc (gmap string value)) (v : value) :
  dbg cmd = false ->
  EPrintJson v ∉ trace (main w cmd fuel (mkState h [])).2.
Proof.
  intros Hd Hin.
  assert (H : Forall (event_ok cmd false) (trace (main w cmd fuel (mkState h [])).2)).
  { apply main_keeps; [rewrite Hd; discriminate | constructor]. }
  rewrite Forall_forall in H. specialize (H _ Hin). discriminate H.
Qed.

Lemma main_quiet_without_dbg_witness :
  EPrintJson (PyInt 0)
  ∉ trace (main (world_of cooperative) (mkCmdline false "host" 1 "user" "key") 5
                (mkState ∅ [])).2.
Proof.
  apply (main_quiet_without_dbg (world_of cooperative)
           (mkCmdline false "host" 1 "user" "key") 5 ∅ (PyInt 0)).
  reflexivity.
Defined.

(** ** Runs against a service that is known in part *)

Section Answered.

Variables (w : world) (cmd : cmdline).

(** A call whose URL the service always answers with [resp]. *)
Lemma call_answered {A} (meth : method) (url : text) (items : list (string * value))
    (args : loc) (m : gmap string value) (k : Response -> M A) (s : state)
    (resp : Response) :
  heap s !! args = Some m ->
  (forall hist req, req_url req = url -> transport w hist req = Return resp) ->
  exists s',
    heap s' !! args = Some m
    /\ requests (trace s')
       = requests (trace s) ++ [mkRequest meth url (list_to_map items ∪ m)]
    /\ (let* l := display items in
        let* params := dcu args l in
        let* resp := send w meth url params in
        k resp) s = k resp s'.
Proof.
  intros Hargs Hw. rewrite (call_run w meth url items args m k s Hargs). cbn zeta.
  rewrite Hw by reflexivity.
  set (l2 := fresh (dom (heap s))).
  set (h1 := <[l2 := list_to_map items]> (heap s)).
  assert (N : args <> l2) by (eapply fresh_ne; eassumption).
  assert (Hh1 : h1 !! args = Some m) by (unfold h1; now rewrite lookup_insert_ne).
  assert (N' : args <> fresh (dom h1))
    by (apply (fresh_ne (mkState h1 []) args m); exact Hh1).
  eexists. split; [|split; [|reflexivity]].
  - cbn. now rewrite lookup_insert_ne.
  - cbn. unfold requests. rewrite !omap_app. cbn. now rewrite app_nil_r.
Qed.

Lemma log_run (debug : bool) (msg : text) (data : value) (s : state) :
  exists s',
    log debug msg data s = (Ret tt, s')
    /\ heap s' = heap s /\ requests (trace s') = requests (trace s).
Proof.
  unfold log, bind, emit, ret. cbn. destruct debug; cbn; eexists;
    (split; [reflexivity|]); (split; [reflexivity|]); cbn;
    unfold requests; rewrite !omap_app; cbn; now rewrite !app_nil_r.
Qed.

Lemma check_site_answered (args : loc) (m : gmap string value) (s : state)
    (resp : Response) :
  heap s !! args = Some m ->
  (forall hist req, req_url req = [Lit (baseurl cmd ++ "sites/")] ->
     transport w hist req = Return resp) ->
  exists s',
    heap s' !! args = Some m
    /\ length (requests (trace s')) = S (length (requests (trace s)))
    /\ check_site w cmd args s =
         (let* data := lift (respcheck resp true) in
          let* n := lift (len data) in
          if negb (n =? 1) then raise (Exception [Lit "Invalid test site specified"])
          else ret data) s'.
Proof.
  intros Hargs Hw. unfold check_site, requests_get.
  destruct (call_answered GET [Lit (baseurl cmd ++ "sites/")]
              [("test_site", PyBool true); ("site", PyInt (site cmd));
               ("active", PyBool true)] args m
              (fun resp =>
                 let* data := lift (respcheck resp true) in
                 let* n := lift (len data) in
                 if negb (n =? 1)
                 then raise (Exception [Lit "Invalid test site specified"])
                 else ret data) s resp Hargs Hw) as (s' & Hh & Hr & E).
  exists s'. split; [assumption|]. split; [|exact E].
  rewrite Hr, length_app. cbn. lia.
Qed.

(** The start of [main] up to the check of the site. *)
Lemma main_start (fuel : nat) (h : gmap loc (gmap string value)) :
  let a := fresh (dom h) in
  let auth : gmap string value := list_to_map [("auth", PyStr (apikey cmd))] in
  let s1 := mkState (<[a := auth]> h) [EAlloc a auth] in
  heap s1 !! a = Some auth
  /\ requests (trace s1) = []
  /\ main w cmd fuel (mkState h []) =
       (let* data := check_site w cmd a in
        dict_setitem a "site" (PyInt (site cmd)) ;;
        examples w cmd fuel a data) s1.
Proof.
  cbn zeta. split; [apply lookup_insert_eq|]. split; reflexivity.
Qed.

End Answered.

(** X9: when [respcheck] rejects the response to the first call, the one
    that validates the site, the run stops with that error after this one
    request, and the site has not been stored into [args]. *)
Theorem main_first_response_rejected (w : world) (cmd : cmdline) (fuel : nat)
    (h : gmap loc (gmap string value)) (resp : Response) (e : exn) :
  (forall hist req, req_url req = [Lit (baseurl cmd ++ "sites/")] ->
     transport w hist req = Return resp) ->
  respcheck resp true = Raise e ->
  let run := main w cmd fuel (mkState h []) in
  run.1 = Exn e
  /\ length (requests (trace run.2)) = 1%nat
  /\ heap run.2 !! fresh (dom h) = Some (list_to_map [("auth", PyStr (apikey cmd))]).
Proof.
  intros Hw He. cbn zeta.
  destruct (main_start w cmd fuel h) as (H1 & R1 & E1).
  destruct (check_site_answered w cmd _ _ _ resp H1 Hw) as (s2 & H2 & R2 & E2).
  assert (E : main w cmd fuel (mkState h []) = (Exn e, s2)).
  { rewrite E1. unfold bind at 1. rewrite E2. unfold bind at 1. now rewrite He. }
  rewrite E. cbn [fst snd]. rewrite R2, R1. auto.
Qed.

Lemma main_first_response_rejected_witness :
  let run := main (world_of (always (mkResponse 503 "down" None)))
                  (mkCmdline false "host" 1 "user" "key") 5 (mkState ∅ []) in
  run.1 = Exn (system_failure 503 "down")
  /\ length (requests (trace run.2)) = 1%nat
  /\ heap run.2 !! fresh (dom (∅ : gmap loc (gmap string value)))
     = Some (list_to_map [("auth", PyStr "key")]).
Proof.
  cbn zeta.
  apply (main_first_response_rejected (world_of (always (mkResponse 503 "down" None)))
           (mkCmdline false "host" 1 "user" "key") 5 ∅ (mkResponse 503 "down" None)).
  - reflexivity.
  - reflexivity.
Defined.

(** X10: when the first call is answered with data whose length is not
    1 (no site, or more than one), the run raises "Invalid test site
    specified" after this one request, and the site has not been stored
    into [args]. *)
Theorem main_invalid_site (w : world) (cmd : cmdline) (fuel : nat)
    (h : gmap loc (gmap string value)) (resp : Response) (data : value) (n : Z) :
  (forall hist req, req_url req = [Lit (baseurl cmd ++ "sites/")] ->
     transport w hist req = Return resp) ->
  respcheck resp true = Return data -> len data = Return n -> n <> 1 ->
  let run := main w cmd fuel (mkState h []) in
  run.1 = Exn (Exception [Lit "Invalid test site specified"])
  /\ length (requests (trace run.2)) = 1%nat
  /\ heap run.2 !! fresh (dom h) = Some (list_to_map [("auth", PyStr (apikey cmd))]).
Proof.
  intros Hw Hd Hl Hn. cbn zeta.
  destruct (main_start w cmd fuel h) as (H1 & R1 & E1).
  destruct (check_site_answered w cmd _ _ _ resp H1 Hw) as (s2 & H2 & R2 & E2).
  assert (E : main w cmd fuel (mkState h [])
              = (Exn (Exception [Lit "Invalid test site specified"]), s2)).
  { rewrite E1. unfold bind at 1. rewrite E2. unfold bind at 1. rewrite Hd. cbn [lift ret].
    unfold bind at 1. rewrite Hl. cbn [lift ret].
    now replace (n =? 1) with false by lia. }
  rewrite E. cbn [fst snd]. rewrite R2, R1. auto.
Qed.

Lemma main_invalid_site_witness :
  let resp := mkResponse 200 "" (Some (PyDict (envelope_success (PyList [])))) in
  let run := main (world_of (always resp))
                  (mkCmdline false "host" 1 "user" "key") 5 (mkState ∅ []) in
  run.1 = Exn (Exception [Lit "Invalid test site specified"])
  /\ length (requests (trace run.2)) = 1%nat
  /\ heap run.2 !! fresh (dom (∅ : gmap loc (gmap string value)))
     = Some (list_to_map [("auth", PyStr "key")]).
Proof.
  cbn zeta.
  apply (main_invalid_site
           (world_of (always (mkResponse 200 "" (Some (PyDict (envelope_success (PyList [])))))))
           (mkCmdline false "host" 1 "user" "key") 5 ∅
           (mkResponse 200 "" (Some (PyDict (envelope_success (PyList [])))))
           (PyList []) 0).
  - reflexivity.
  - reflexivity.
  - reflexivity.
  - discriminate.
Defined.


(** ** The paging loop, in general *)

Section PagingResult.

Variables (w : world) (cmd : cmdline) (items : list value).
Hypothesis service : transport w = paged_service items.
Variables (args : loc) (d : gmap string value) (limit : nat).
Hypothesis limit_pos : (0 < limit)%nat.

(** Against a stable list the loop makes one request per full page and
    one more, and ends with the last item, or with what it started with
    when nothing is left. *)
Lemma area_loop_paged (fuel offset : nat) (area_data : value) (s : state) :
  heap s !! args = Some d ->
  (length items - offset < fuel * limit)%nat ->
  exists s' t,
    area_loop w cmd fuel args (Z.of_nat limit) (Z.of_nat offset) area_data s
      = (Ret (default area_data (last (drop offset items))), s')
    /\ trace s' = trace s ++ t
    /\ length (requests t) = S ((length items - offset) / limit).
Proof.
  revert offset area_data s.
  induction fuel as [|fuel IH]; intros offset area_data s Hs Hlen; [lia|].
  destruct (area_loop_step w cmd items service args d fuel (Z.of_nat limit)
              (Z.of_nat offset) area_data s Hs)
    as (s1 & t1 & H1 & Ht1 & _ & (req & Hr1 & _) & E1).
  rewrite !Nat2Z.id in *.
  set (page := take limit (drop offset items)) in *.
  assert (Hpage : length page = Nat.min limit (length items - offset))
    by (unfold page; rewrite length_take, length_drop; lia).
  rewrite E1. destruct (Z.of_nat (length page) <? Z.of_nat limit) eqn:B.
  - assert (Hall : page = drop offset items)
      by (unfold page; apply take_ge; rewrite length_drop; lia).
    assert (Hcount : ((length items - offset) / limit = 0)%nat)
      by (apply Nat.div_small; lia).
    rewrite <- Hall, Hcount.
    destruct page as [|x page'] eqn:Ep.
    + exists s1, t1. cbn. now rewrite Hr1.
    + destruct (getitem_last (x :: page')) as (y & Hy & Ey); [discriminate|].
      exists s1, t1. cbn [truthy]. rewrite Ey, Hy, Hr1. auto.
  - assert (Hfull : length page = limit) by lia.
    destruct (getitem_last page) as (y & Hy & Ey);
      [intros ->; cbn in Hfull; lia|].
    unfold bind. rewrite Ey. cbn [lift ret].
    rewrite Hfull, <- Nat2Z.inj_add.
    destruct (IH (offset + limit)%nat y s1 H1) as (s2 & t2 & E2 & Ht2 & Hn2); [lia|].
    assert (Hlast : default y (last (drop (offset + limit) items))
                    = default area_data (last (drop offset items))).
    { assert (Hsplit : drop offset items = page ++ drop (offset + limit) items)
        by (unfold page; rewrite <- drop_drop; symmetry; apply take_drop).
      rewrite Hsplit, last_app.
      destruct (last (drop (offset + limit) items)); cbn; [reflexivity|].
      now rewrite Hy. }
    exists s2, (t1 ++ t2). rewrite E2, Ht2, Ht1, <- app_assoc, Hlast.
    split; [reflexivity|]. split; [reflexivity|].
    + unfold requests in *. rewrite omap_app, length_app, Hr1, Hn2. cbn.
      replace (length items - offset)%nat
        with ((length items - (offset + limit)) + 1 * limit)%nat by lia.
      rewrite Nat.div_add by lia. lia.
Qed.

End PagingResult.

(** X11: against any stable list, with any positive page size and a
    loop bound above the number of pages, the paging loop ends, and the
    pages that it received, put together in order, are the list from the
    starting offset on: every item is visited once. *)
Theorem paging_visits_all (w : world) (cmd : cmdline) (items : list value)
    (args : loc) (d : gmap string value) (limit fuel offset : nat)
    (area_data : value) (s : state) :
  transport w = paged_service items ->
  (0 < limit)%nat ->
  heap s !! args = Some d ->
  (length items - offset < fuel * limit)%nat ->
  exists v s' t,
    area_loop w cmd fuel args (Z.of_nat limit) (Z.of_nat offset) area_data s
      = (Ret v, s')
    /\ trace s' = trace s ++ t
    /\ concat (pages t) = drop offset items
    /\ heap s' !! args = Some d.
Proof.
  intros Hw Hl Hs Hlen.
  exact (area_loop_visits_all w cmd items Hw args d limit Hl fuel offset area_data s
           Hs Hlen).
Qed.

Lemma paging_visits_all_witness :
  let items := [PyInt 1; PyInt 2; PyInt 3; PyInt 4; PyInt 5; PyInt 6] in
  let s := mkState {[0%nat := {["auth" := PyStr "key"]}]} [] in
  exists v s' t,
    area_loop (world_of (paged_service items)) (mkCmdline false "host" 1 "user" "key")
              3 0%nat (Z.of_nat 3) (Z.of_nat 0) PyNone s = (Ret v, s')
    /\ trace s' = trace s ++ t
    /\ concat (pages t) = drop 0 items
    /\ heap s' !! 0%nat = Some {["auth" := PyStr "key"]}.
Proof.
  cbn zeta.
  apply (paging_visits_all (world_of (paged_service _)) _ _ 0%nat
           {["auth" := PyStr "key"]} 3%nat 3%nat 0%nat).
  - reflexivity.
  - lia.
  - reflexivity.
  - cbn. lia.
Defined.

(** X12: against a stable list of [n] items the loop started at offset 0
    makes [n / limit + 1] requests, so that a list whose length is a
    multiple of the page size costs one more request, answered with an
    empty page; it ends with the last item of the list, or with the
    initial [None] when the list is empty. *)
Theorem paging_request_count (w : world) (cmd : cmdline) (items : list value)
    (args : loc) (d : gmap string value) (limit fuel : nat) (s : state) :
  transport w = paged_service items ->
  (0 < limit)%nat ->
  heap s !! args = Some d ->
  (length items < fuel * limit)%nat ->
  exists s' t,
    area_loop w cmd fuel args (Z.of_nat limit) 0 PyNone s
      = (Ret (default PyNone (last items)), s')
    /\ trace s' = trace s ++ t
    /\ length (requests t) = S (length items / limit).
Proof.
  intros Hw Hl Hs Hlen.
  destruct (area_loop_paged w cmd items Hw args d limit Hl fuel 0%nat PyNone s Hs)
    as (s' & t & E & Ht & Hn); [lia|].
  exists s', t. rewrite Nat.sub_0_r in Hn. auto.
Qed.

Lemma paging_request_count_witness :
  let items := [PyInt 1; PyInt 2; PyInt 3; PyInt 4] in
  let s := mkState {[0%nat := {["auth" := PyStr "key"]}]} [] in
  exists s' t,
    area_loop (world_of (paged_service items)) (mkCmdline false "host" 1 "user" "key")
              3 0%nat (Z.of_nat 2) 0 PyNone s
      = (Ret (default PyNone (last items)), s')
    /\ trace s' = trace s ++ t
    /\ length (requests t) = S (length items / 2).
Proof.
  cbn zeta.
  apply (paging_request_count (world_of (paged_service _)) _ _ 0%nat
           {["auth" := PyStr "key"]} 2%nat 3%nat).
  - reflexivity.
  - lia.
  - reflexivity.
  - cbn. lia.
Defined.

(** X13: the loop relies on the service to honour the offset: when every
    request for areas is answered with a full page, the loop never ends;
    whatever the bound, it is used up, with one request per iteration. *)
Theorem paging_never_ends (w : world) (cmd : cmdline) (args : loc)
    (m : gmap string value) (limit : Z) :
  (forall hist req, req_url req = [Lit (baseurl cmd ++ "areas/")] ->
     exists resp l,
       transport w hist req = Return resp
       /\ respcheck resp true = Return (PyList l)
       /\ l <> [] /\ limit <= Z.of_nat (length l)) ->
  forall (fuel : nat) (offset : Z) (area_data : value) (s : state),
    heap s !! args = Some m ->
    exists s',
      area_loop w cmd fuel args limit offset area_data s = (OutOfFuel, s')
      /\ length (requests (trace s')) = (length (requests (trace s)) + fuel)%nat.
Proof.
  intros Hw. induction fuel as [|fuel IH]; intros offset area_data s Hs.
  - exists s. split; [reflexivity | lia].
  - cbn [area_loop]. unfold requests_get.
    rewrite (call_run w GET _ _ args m _ s Hs). cbn zeta.
    set (l2 := fresh (dom (heap s))).
    set (h1 := <[l2 := _]> (heap s)).
    set (pre := trace s ++ _). set (req := mkRequest _ _ _).
    destruct (Hw pre req eq_refl) as (resp & l & Ht & Hc & Hne & Hlen).
    rewrite Ht. set (s1 := mkState _ _).
    assert (N : args <> l2) by (eapply fresh_ne; eassumption).
    assert (Hh1 : h1 !! args = Some m) by (unfold h1; now rewrite lookup_insert_ne).
    assert (N' : args <> fresh (dom h1))
      by (apply (fresh_ne (mkState h1 []) args m); exact Hh1).
    assert (H1 : heap s1 !! args = Some m) by (cbn; now rewrite lookup_insert_ne).
    assert (R1 : length (requests (trace s1)) = S (length (requests (trace s)))).
    { cbn. unfold pre, requests. rewrite !omap_app, !length_app. cbn. lia. }
    destruct (getitem_last l Hne) as (y & _ & Hy).
    unfold bind at 1. rewrite Hc. cbn [lift ret].
    unfold bind at 1. cbn [len lift ret].
    replace (Z.of_nat (length l) <? limit) with false by lia.
    unfold bind at 1. rewrite Hy. cbn [lift ret].
    destruct (IH (offset + Z.of_nat (length l)) y s1 H1) as (s' & E & R).
    exists s'. split; [exact E | lia].
Qed.

Lemma paging_never_ends_witness :
  let resp := mkResponse 200 ""
                (Some (PyDict (envelope_success (PyList [PyInt 1; PyInt 2])))) in
  let s := mkState {[0%nat := {["auth" := PyStr "key"]}]} [] in
  exists s',
    area_loop (world_of (always resp)) (mkCmdline false "host" 1 "user" "key")
              7 0%nat 2 0 PyNone s = (OutOfFuel, s')
    /\ length (requests (trace s')) = (length (requests (trace s)) + 7)%nat.
Proof.
  cbn zeta.
  apply (paging_never_ends (world_of (always _)) _ 0%nat {["auth" := PyStr "key"]} 2).
  - intros hist req _. exists (mkResponse 200 ""
        (Some (PyDict (envelope_success (PyList [PyInt 1; PyInt 2]))))),
      [PyInt 1; PyInt 2].
    split; [reflexivity|]. split; [reflexivity|]. split; [discriminate | cbn; lia].
  - reflexivity.
Defined.


(** X14: when the site is valid but the service lists no area (the first
    page is empty), the run stops with "Couldn't find an active area to
    use" after two requests, the site being stored in [args] by then. *)
Theorem main_no_area (w : world) (cmd : cmdline) (fuel : nat)
    (h : gmap loc (gmap string value)) (resp_site resp_areas : Response)
    (data site0 descr : value) :
  (forall hist req, req_url req = [Lit (baseurl cmd ++ "sites/")] ->
     transport w hist req = Return resp_site) ->
  (forall hist req, req_url req = [Lit (baseurl cmd ++ "areas/")] ->
     transport w hist req = Return resp_areas) ->
  respcheck resp_site true = Return data -> len data = Return 1 ->
  getitem data (KInt 0) = Return site0 ->
  getitem site0 (KStr "description") = Return descr ->
  respcheck resp_areas true = Return (PyList []) ->
  let run := main w cmd (S fuel) (mkState h []) in
  run.1 = Exn (Exception [Lit "Couldn't find an active area to use"])
  /\ length (requests (trace run.2)) = 2%nat
  /\ heap run.2 !! fresh (dom h)
     = Some (list_to_map [("auth", PyStr (apikey cmd)); ("site", PyInt (site cmd))]).
Proof.
  intros Hw1 Hw2 Hd Hl Hg0 Hgd Ha. cbn zeta.
  destruct (main_start w cmd (S fuel) h) as (H1 & R1 & E1).
  set (a := fresh (dom h)) in *.
  set (auth := list_to_map [("auth", PyStr (apikey cmd))] : gmap string value) in *.
  set (s1 := mkState _ _) in *.
  destruct (check_site_answered w cmd a auth s1 resp_site H1 Hw1) as (s2 & H2 & R2 & E2).
  assert (Ec : check_site w cmd a s1 = (Ret data, s2)).
  { rewrite E2. unfold bind at 1. rewrite Hd. cbn [lift ret].
    unfold bind at 1. now rewrite Hl. }
  set (m := <["site" := PyInt (site cmd)]> auth).
  set (s3 := mkState (<[a := m]> (heap s2)) (trace s2 ++ [ESetItem a "site" (PyInt (site cmd))])).
  assert (H3 : heap s3 !! a = Some m) by apply lookup_insert_eq.
  assert (R3 : length (requests (trace s3)) = 1%nat).
  { cbn. unfold requests in *. rewrite omap_app, length_app, R2, R1. reflexivity. }
  destruct (log_run (dbg cmd) [Lit "Using site: "; Str descr] data s3)
    as (s4 & E4 & H4 & R4).
  destruct (call_answered w GET [Lit (baseurl cmd ++ "areas/")]
              [("active", PyBool true); ("limit", PyInt 2); ("offset", PyInt 0)]
              a m
              (fun resp =>
                 let* data := lift (respcheck resp true) in
                 let* n := lift (len data) in
                 if n <? 2 then
                   if truthy data then lift (getitem data (KInt (-1))) else ret PyNone
                 else
                   let* last := lift (getitem data (KInt (-1))) in
                   area_loop w cmd fuel a 2 (0 + n) last)
              s4 resp_areas) as (s5 & H5 & R5 & E5); [now rewrite H4 | exact Hw2 |].
  assert (El : area_loop w cmd (S fuel) a 2 0 PyNone s4 = (Ret PyNone, s5)).
  { cbn [area_loop]. unfold requests_get. rewrite E5.
    unfold bind at 1. rewrite Ha. reflexivity. }
  assert (E : main w cmd (S fuel) (mkState h [])
              = (Exn (Exception [Lit "Couldn't find an active area to use"]), s5)).
  { rewrite E1. unfold bind at 1. rewrite Ec.
    unfold bind at 1. rewrite (setitem_run s2 a auth) by assumption. fold m. fold s3.
    unfold examples.
    unfold bind at 1. rewrite Hg0. cbn [lift ret].
    unfold bind at 1. rewrite Hgd. cbn [lift ret].
    unfold bind at 1. rewrite E4.
    unfold bind at 1. rewrite El.
    unfold bind at 1. reflexivity. }
  rewrite E. cbn [fst snd]. split; [reflexivity|]. split; [|exact H5].
  rewrite R5, length_app, R4, R3. reflexivity.
Qed.

Lemma main_no_area_witness :
  let cmd := mkCmdline false "host" 1 "user" "key" in
  let run := main (world_of (one_site_no_area cmd)) cmd 1 (mkState ∅ []) in
  run.1 = Exn (Exception [Lit "Couldn't find an active area to use"])
  /\ length (requests (trace run.2)) = 2%nat
  /\ heap run.2 !! fresh (dom (∅ : gmap loc (gmap string value)))
     = Some (list_to_map [("auth", PyStr "key"); ("site", PyInt 1)]).
Proof.
  cbn zeta.
  apply (main_no_area (world_of (one_site_no_area (mkCmdline false "host" 1 "user" "key")))
           (mkCmdline false "host" 1 "user" "key") 0 ∅
           (mkResponse 200 "" (Some (PyDict (envelope_success
              (PyList [PyDict {["description" := PyStr "Test site"]}])))))
           (mkResponse 200 "" (Some (PyDict (envelope_success (PyList [])))))
           (PyList [PyDict {["description" := PyStr "Test site"]}])
           (PyDict {["description" := PyStr "Test site"]})
           (PyStr "Test site")).
  - intros hist req Hu. cbn. unfold one_site_no_area. rewrite Hu. reflexivity.
  - intros hist req Hu. cbn. unfold one_site_no_area. rewrite Hu. reflexivity.
  - reflexivity.
  - reflexivity.
  - reflexivity.
  - reflexivity.
  - reflexivity.
Defined.


(** ** The two formats *)

Section Formats.

Lemma string_app_cons (c : ascii) (s1 s2 : string) :
  (String c s1 ++ s2)%string = String c (s1 ++ s2).
Proof. reflexivity. Qed.

Lemma string_length_app (s1 s2 : string) :
  String.length (s1 ++ s2) = (String.length s1 + String.length s2)%nat.
Proof.
  induction s1 as [|c s1 IH]; [reflexivity|].
  rewrite string_app_cons. cbn [String.length]. now rewrite IH.
Qed.

Lemma string_tail_eq (c : ascii) (s s' : string) : String c s = String c s' -> s = s'.
Proof. now intros [= ->]. Qed.

Lemma string_app_assoc (s1 s2 s3 : string) :
  ((s1 ++ s2) ++ s3 = s1 ++ (s2 ++ s3))%string.
Proof.
  induction s1 as [|c s1 IH]; [reflexivity|].
  rewrite !string_app_cons. now rewrite IH.
Qed.

Lemma string_app_nil_r (s : string) : (s ++ "")%string = s.
Proof.
  induction s as [|c s IH]; [reflexivity|].
  rewrite string_app_cons. now rewrite IH.
Qed.

Lemma string_app_inj (s1 s1' s2 s2' : string) :
  String.length s1 = String.length s1' ->
  (s1 ++ s2 = s1' ++ s2')%string -> s1 = s1' /\ s2 = s2'.
Proof.
  revert s1'. induction s1 as [|c s1 IH]; intros [|c' s1'] Hl H;
    try discriminate Hl; [now split|].
  rewrite !string_app_cons in H.
  injection H as -> H. injection Hl as Hl.
  destruct (IH s1' Hl H) as [-> ->]. now split.
Qed.

Lemma padded_length (w : nat) (z : Z) : String.length (padded w z) = w.
Proof.
  revert z. induction w as [|w IH]; intros z; cbn [padded]; [reflexivity|].
  rewrite string_length_app, IH. cbn. lia.
Qed.

Lemma digit_inj (z z' : Z) : digit z = digit z' -> z mod 10 = z' mod 10.
Proof.
  unfold digit. intros H. apply (f_equal nat_of_ascii) in H.
  pose proof (Z.mod_pos_bound z 10 eq_refl).
  pose proof (Z.mod_pos_bound z' 10 eq_refl).
  rewrite !nat_ascii_embedding in H by lia. lia.
Qed.

Lemma padded_inj (w : nat) (z z' : Z) :
  0 <= z < 10 ^ Z.of_nat w -> 0 <= z' < 10 ^ Z.of_nat w ->
  padded w z = padded w z' -> z = z'.
Proof.
  revert z z'. induction w as [|w IH]; intros z z' Hz Hz' H.
  - cbn in Hz, Hz'. lia.
  - rewrite Nat2Z.inj_succ, Z.pow_succ_r in Hz, Hz' by lia.
    cbn [padded] in H.
    apply string_app_inj in H; [|now rewrite !padded_length].
    destruct H as [H1 H2]. injection H2 as H2. apply digit_inj in H2.
    apply IH in H1; [|split; [apply Z.div_pos; lia | apply Z.div_lt_upper_bound; lia]..].
    rewrite (Z.div_mod z 10), (Z.div_mod z' 10) by lia. lia.
Qed.

Lemma days_in_month_le (y m : Z) : days_in_month y m <= 31.
Proof.
  unfold days_in_month. destruct (_ && _); [lia|].
  generalize (Z.to_nat m). intros n.
  do 13 (destruct n as [|n]; [cbn; lia|]). destruct n; cbn; lia.
Qed.

End Formats.

(** X15: for every timestamp with a four-digit year the seconds format
    gives the text of the minute format followed by a colon and the two
    digits of the seconds, and both texts have a fixed width, 16 and 19
    characters. *)
Theorem api_formats_shape (dt : datetime) :
  four_digit_year dt ->
  strftime dt API_SECONDS_FORMAT
  = (strftime dt API_MINUTE_FORMAT ++ ":" ++ padded 2 (second dt))%string
  /\ String.length (strftime dt API_MINUTE_FORMAT) = 16%nat
  /\ String.length (strftime dt API_SECONDS_FORMAT) = 19%nat.
Proof.
  intros _.
  unfold API_SECONDS_FORMAT, API_MINUTE_FORMAT. cbn -[padded String.append].
  rewrite !string_app_nil_r.
  split; [|split].
  - repeat rewrite ?string_app_assoc, ?string_app_cons. reflexivity.
  - repeat rewrite ?string_length_app, ?padded_length; cbn [String.length].
    reflexivity.
  - repeat rewrite ?string_length_app, ?padded_length; cbn [String.length].
    reflexivity.
Qed.

Lemma api_formats_shape_witness :
  let dt := mkDatetime 2024 1 5 13 7 9 0 in
  strftime dt API_SECONDS_FORMAT
  = (strftime dt API_MINUTE_FORMAT ++ ":" ++ padded 2 (second dt))%string
  /\ String.length (strftime dt API_MINUTE_FORMAT) = 16%nat
  /\ String.length (strftime dt API_SECONDS_FORMAT) = 19%nat.
Proof.
  cbn zeta. apply api_formats_shape.
  repeat split; vm_compute; easy.
Defined.

(** X16: the seconds format loses nothing down to the second: two
    timestamps with four-digit years that are formatted to the same text
    agree on year, month, day, hour, minute and second. *)
Theorem api_seconds_format_injective (dt1 dt2 : datetime) :
  four_digit_year dt1 -> four_digit_year dt2 ->
  strftime dt1 API_SECONDS_FORMAT = strftime dt2 API_SECONDS_FORMAT ->
  year dt1 = year dt2 /\ month dt1 = month dt2 /\ day dt1 = day dt2
  /\ hour dt1 = hour dt2 /\ minute dt1 = minute dt2 /\ second dt1 = second dt2.
Proof.
  intros (Hy1 & Hm1 & Hd1 & HH1 & HM1 & HS1 & _) (Hy2 & Hm2 & Hd2 & HH2 & HM2 & HS2 & _).
  pose proof (days_in_month_le (year dt1) (month dt1)) as B1.
  pose proof (days_in_month_le (year dt2) (month dt2)) as B2.
  unfold API_SECONDS_FORMAT. cbn -[padded String.append].
  rewrite !string_app_nil_r. intros H.
  apply string_app_inj in H; [|now rewrite !padded_length].
  destruct H as [Ey H]. apply string_tail_eq in H.
  apply string_app_inj in H; [|now rewrite !padded_length].
  destruct H as [Em H]. apply string_tail_eq in H.
  apply string_app_inj in H; [|now rewrite !padded_length].
  destruct H as [Ed H]. apply string_tail_eq in H.
  apply string_app_inj in H; [|now rewrite !padded_length].
  destruct H as [EH H]. apply string_tail_eq in H.
  apply string_app_inj in H; [|now rewrite !padded_length].
  destruct H as [EM ES]. apply string_tail_eq in ES.
  apply padded_inj in Ey, Em, Ed, EH, EM, ES; cbn; lia.
Qed.

Lemma api_seconds_format_injective_witness :
  year (mkDatetime 2024 1 5 13 7 9 0) = year (mkDatetime 2024 1 5 13 7 9 250000)
  /\ month (mkDatetime 2024 1 5 13 7 9 0) = month (mkDatetime 2024 1 5 13 7 9 250000)
  /\ day (mkDatetime 2024 1 5 13 7 9 0) = day (mkDatetime 2024 1 5 13 7 9 250000)
  /\ hour (mkDatetime 2024 1 5 13 7 9 0) = hour (mkDatetime 2024 1 5 13 7 9 250000)
  /\ minute (mkDatetime 2024 1 5 13 7 9 0) = minute (mkDatetime 2024 1 5 13 7 9 250000)
  /\ second (mkDatetime 2024 1 5 13 7 9 0) = second (mkDatetime 2024 1 5 13 7 9 250000).
Proof.
  apply api_seconds_format_injective.
  - repeat split; vm_compute; easy.
  - repeat split; vm_compute; easy.
  - reflexivity.
Defined.
